(** * Manila CSI driver operator: the ManilaController sync loop

    Shallow embedding of [pkg/controllers/manila/manila.go].

    The controller talks to four collaborators through Go interfaces (the
    operator client, the Kubernetes client, the storage-class lister and the
    OpenStack client) and spawns the CSI driver controllers.  Every call
    that leaves the file is an element of [Call]; a Go method of the
    controller is a finite tree of such calls ([Prog]), and running a tree
    against an arbitrary environment ([Handler]) yields the returned value,
    the environment afterwards and the log of calls with their answers.
    The [klog] lines of the file write to the process log only and are left
    out. *)

From Stdlib Require Import ZArith.
From stdpp Require Import base strings gmap list.

Local Open Scope string_scope.
Local Open Scope list_scope.

(** ** Go errors *)

(** The [error] interface, by dynamic type: the values the file tells apart
    are [*gophercloud.ErrEndpointNotFound] (type switch in [sync]), the API
    status errors inspected by [apierrors.IsNotFound], and the aggregate
    built by [errors.NewAggregate].  A nil error is [None]. *)
#[warnings="-register-all"]
Inductive error : Type :=
| ErrEndpointNotFound (msg : string)
| StatusError (reason : string) (msg : string)
| ErrOther (msg : string)
| Aggregate (errlist : list error).

(** A Go result pair [(value, err)] of which the value is read only when
    [err == nil]. *)
Inductive res (A : Type) : Type :=
| Ok (a : A)
| Err (e : error).
Arguments Ok {A} a.
Arguments Err {A} e.

Module apierrors.

Definition StatusReasonNotFound : string := "NotFound".

(** Modelled from the spec: [apierrors.IsNotFound] of apimachinery, which
    is not under src/.  Sections 4.3 and 6: the "not found" outcome of a
    delete, that is an API status error whose reason is
    [StatusReasonNotFound]. *)
Definition IsNotFound (err : error) : bool :=
  match err with
  | StatusError reason _ => bool_decide (reason = StatusReasonNotFound)
  | _ => false
  end.

End apierrors.

Module errors.

(** Modelled from the spec: [errors.NewAggregate] of apimachinery, which
    is not under src/.  Section 7: the errors are put together into one
    composite error; an empty list gives nil (the list built by
    [syncStorageClasses] holds no nil entry, so nothing is filtered out). *)
Definition NewAggregate (errlist : list error) : option error :=
  match errlist with
  | [] => None
  | _ :: _ => Some (Aggregate errlist)
  end.

End errors.

(** ** API types *)

Module sharetypes.

Record ShareType : Type := {
  ID : string;
  Name : string;
  IsPublic : bool;
  RequiredExtraSpecs : gmap string string;
  ExtraSpecs : gmap string string
}.

End sharetypes.

Module metav1.

(** Of [metav1.ObjectMeta]: the two strings and the two maps that
    [EnsureObjectMeta] merges, and two of the fields it leaves as they are.
    Owner references, which a generated class never sets, are left out. *)
Record ObjectMeta : Type := {
  Name : string;
  Namespace : string;
  UID : string;
  ResourceVersion : string;
  Labels : gmap string string;
  Annotations : gmap string string
}.

End metav1.

Module storagev1.

(** [Parameters] is a Go map: [None] is the nil map, which
    [reflect.DeepEqual] tells apart from an empty one. *)
Record StorageClass : Type := {
  ObjectMeta : metav1.ObjectMeta;
  Provisioner : string;
  Parameters : option (gmap string string);
  ReclaimPolicy : option string;
  MountOptions : list string;
  AllowVolumeExpansion : option bool;
  VolumeBindingMode : option string
}.

Definition IsDefaultStorageClassAnnotation : string :=
  "storageclass.kubernetes.io/is-default-class".

End storagev1.

Module operatorv1.

(** [ManagementState] is a string type in Go. *)
Definition ManagementState : Type := string.
Definition Managed : ManagementState := "Managed".
Definition Unmanaged : ManagementState := "Unmanaged".
Definition Removed : ManagementState := "Removed".

Inductive ConditionStatus : Type :=
| ConditionTrue
| ConditionFalse
| ConditionUnknown.

Definition OperatorStatusTypeAvailable : string := "Available".

Record OperatorCondition : Type := {
  Type_ : string;
  Status : ConditionStatus;
  Reason : string;
  Message : string
}.

Record OperatorSpec : Type := {
  ManagementState_ : ManagementState;
  LogLevel : string
}.

Record OperatorStatus : Type := {
  ObservedGeneration : Z;
  Conditions : list OperatorCondition;
  Version : string;
  ReadyReplicas : Z
}.

#[global] Instance ConditionStatus_eq_dec : EqDecision ConditionStatus.
Proof. solve_decision. Defined.

End operatorv1.

(** Modelled from the spec: [reflect.DeepEqual] on two [map[string]string]
    values.  Section 4.3 step 4: deep equality over the full key/value
    mapping; a nil map and an empty map are not deeply equal. *)
Definition DeepEqual (x y : option (gmap string string)) : bool :=
  bool_decide (x = y).

Module resourcemerge.

(** Modelled from the spec: [resourcemerge.SetStringIfSet] of library-go,
    which is not under src/.  Section 4.3 step 5b: a string the desired
    object sets (a non-empty one) wins, an unset one leaves the observed
    string. *)
Definition SetStringIfSet (existing required : string) : bool * string :=
  if (String.length required =? 0)%nat then (false, existing)
  else if bool_decide (required = existing) then (false, existing)
  else (true, required).

(** Modelled from the spec: [resourcemerge.MergeMap] of library-go, which
    is not under src/.  Section 4.3 step 5b: entries of the observed map
    that the desired map does not set are carried over, entries set by the
    desired map win. *)
Definition MergeMap (existing required : gmap string string)
  : bool * gmap string string :=
  let merged := required ∪ existing in
  (negb (bool_decide (merged = existing)), merged).

(** Modelled from the spec: [resourcemerge.EnsureObjectMeta] of
    library-go, which is not under src/.  It merges [required] into
    [existing] field by field and reports whether anything changed; the
    fields that a desired object never sets ([UID], [ResourceVersion]) stay
    as they are on the observed object. *)
Definition EnsureObjectMeta (existing required : metav1.ObjectMeta)
  : bool * metav1.ObjectMeta :=
  let '(m1, ns) :=
    SetStringIfSet (metav1.Namespace existing) (metav1.Namespace required) in
  let '(m2, name) :=
    SetStringIfSet (metav1.Name existing) (metav1.Name required) in
  let '(m3, labels) :=
    MergeMap (metav1.Labels existing) (metav1.Labels required) in
  let '(m4, annotations) :=
    MergeMap (metav1.Annotations existing) (metav1.Annotations required) in
  (m1 || m2 || m3 || m4,
   {| metav1.Name := name;
      metav1.Namespace := ns;
      metav1.UID := metav1.UID existing;
      metav1.ResourceVersion := metav1.ResourceVersion existing;
      metav1.Labels := labels;
      metav1.Annotations := annotations |}).

End resourcemerge.

Module v1helpers.
Import operatorv1.

(** A Go [UpdateStatusFunc] mutates the status it is handed and returns an
    error: here it returns the new status with the error. *)
Definition UpdateStatusFunc : Type :=
  OperatorStatus -> OperatorStatus * option error.

(** Modelled from the spec: [v1helpers.FindOperatorCondition] and
    [v1helpers.IsOperatorConditionTrue] of library-go, which are not under
    src/.  Section 9: conditions are looked up by type; the first condition
    of the type is the one found. *)
Fixpoint FindOperatorCondition (conditions : list OperatorCondition)
    (conditionType : string) : option OperatorCondition :=
  match conditions with
  | [] => None
  | c :: rest =>
      if bool_decide (Type_ c = conditionType) then Some c
      else FindOperatorCondition rest conditionType
  end.

Definition IsOperatorConditionTrue (conditions : list OperatorCondition)
    (conditionType : string) : bool :=
  match FindOperatorCondition conditions conditionType with
  | Some c => bool_decide (Status c = ConditionTrue)
  | None => false
  end.

(** Modelled from the spec: [v1helpers.SetOperatorCondition] of
    library-go, which is not under src/.  Section 9: set is
    insert-or-replace by condition type; the first condition of that type
    takes the new status, reason and message, and a condition of a new
    type is appended. *)
Fixpoint SetOperatorCondition (conditions : list OperatorCondition)
    (newCondition : OperatorCondition) : list OperatorCondition :=
  match conditions with
  | [] => [newCondition]
  | c :: rest =>
      if bool_decide (Type_ c = Type_ newCondition)
      then {| Type_ := Type_ c;
              Status := Status newCondition;
              Reason := Reason newCondition;
              Message := Message newCondition |} :: rest
      else c :: SetOperatorCondition rest newCondition
  end.

(** Modelled from the spec: [v1helpers.RemoveOperatorCondition] of
    library-go, which is not under src/.  Section 9: remove is
    delete-by-key, every condition of the given type goes. *)
Fixpoint RemoveOperatorCondition (conditions : list OperatorCondition)
    (conditionType : string) : list OperatorCondition :=
  match conditions with
  | [] => []
  | c :: rest =>
      if bool_decide (Type_ c = conditionType)
      then RemoveOperatorCondition rest conditionType
      else c :: RemoveOperatorCondition rest conditionType
  end.

Definition withConditions (st : OperatorStatus)
    (conditions : list OperatorCondition) : OperatorStatus :=
  {| ObservedGeneration := ObservedGeneration st;
     Conditions := conditions;
     Version := Version st;
     ReadyReplicas := ReadyReplicas st |}.

(** Modelled from the spec: [v1helpers.UpdateConditionFn] of library-go,
    which is not under src/: the update function that sets one condition. *)
Definition UpdateConditionFn (cond : OperatorCondition) : UpdateStatusFunc :=
  fun oldStatus =>
    (withConditions oldStatus
       (SetOperatorCondition (Conditions oldStatus) cond), None).

(** Modelled from the spec: the read-modify-write body of
    [v1helpers.UpdateStatus] of library-go, which is not under src/.  The
    update functions run in order on a copy of the stored status and the
    first error stops them. *)
Fixpoint applyUpdateFuncs (updateFuncs : list UpdateStatusFunc)
    (st : OperatorStatus) : OperatorStatus * option error :=
  match updateFuncs with
  | [] => (st, None)
  | update :: rest =>
      match update st with
      | (st', None) => applyUpdateFuncs rest st'
      | (st', Some err) => (st', Some err)
      end
  end.

End v1helpers.

(** ** Calls that leave the controller *)

(** A [Runnable] (a CSI driver controller set) is known by its name. *)
Definition Runnable : Type := string.

(** One constructor per external call of the file, indexed by the type of
    what the call returns:
    - [c.operatorClient.GetOperatorState()], returning the spec, the status
      and the resource version;
    - [c.openStackClient.GetShareTypes()];
    - [c.storageClassLister.Get(name)], the read cache;
    - [c.kubeClient.StorageV1().StorageClasses().Delete(ctx, name, ...)];
    - [resourceapply.ApplyStorageClass(client, recorder, required)],
      returning the applied class, whether it changed, and the error;
    - [v1helpers.UpdateStatus(c.operatorClient, updateFuncs...)], one atomic
      conditional update of the operator status, returning the updated
      status, whether it was written, and the error;
    - [go ctrl.Run(ctx, workers)], which returns at once. *)
Inductive Call : Type -> Type :=
| GetOperatorState :
    Call (res (operatorv1.OperatorSpec * operatorv1.OperatorStatus * string))
| GetShareTypes : Call (res (list sharetypes.ShareType))
| ListerGet (name : string) : Call (res storagev1.StorageClass)
| DeleteStorageClass (name : string) : Call (option error)
| ApplyStorageClass (required : storagev1.StorageClass) :
    Call (option storagev1.StorageClass * bool * option error)
| UpdateStatus (updateFuncs : list v1helpers.UpdateStatusFunc) :
    Call (option operatorv1.OperatorStatus * bool * option error)
| GoRun (ctrl : Runnable) (workers : Z) : Call unit.

(** A method body: it returns, or makes a call and goes on with the
    answer. *)
Inductive Prog (A : Type) : Type :=
| Ret (a : A)
| Vis {R : Type} (c : Call R) (k : R -> Prog A).
Arguments Ret {A} a.
Arguments Vis {A R} c k.

Fixpoint bind {A B : Type} (p : Prog A) (f : A -> Prog B) : Prog B :=
  match p with
  | Ret a => f a
  | Vis c k => Vis c (fun r => bind (k r) f)
  end.

Definition call {R : Type} (c : Call R) : Prog R := Vis c Ret.

Notation "x <- p ;; q" := (bind p (fun x => q))
  (at level 100, p at next level, right associativity, only parsing).


(** A call together with the answer it got. *)
Inductive Event : Type :=
| Ev {R : Type} (c : Call R) (r : R).

(** The environment: every call is answered from a state [W] of the world
    outside the controller, which the call may change. *)
Definition Handler (W : Type) : Type := forall R : Type, Call R -> W -> R * W.

Fixpoint interp {W A : Type} (h : Handler W) (p : Prog A) (w : W)
  : A * W * list Event :=
  match p with
  | Ret a => (a, w, [])
  | Vis c k =>
      let '(r, w1) := h _ c w in
      let '(a, w2, t) := interp h (k r) w1 in
      (a, w2, Ev c r :: t)
  end.

(** ** The controller *)

Record Controller : Type := {
  csiControllers : list Runnable;
  controllersRunning : bool
}.

Definition operatorConditionPrefix : string := "ManilaController".

Definition removeConditionFn (cnd : string) : v1helpers.UpdateStatusFunc :=
  fun oldStatus =>
    (v1helpers.withConditions oldStatus
       (v1helpers.RemoveOperatorCondition
          (operatorv1.Conditions oldStatus) cnd), None).

Definition availableCnd : operatorv1.OperatorCondition :=
  {| operatorv1.Type_ :=
       operatorConditionPrefix +:+ operatorv1.OperatorStatusTypeAvailable;
     operatorv1.Status := operatorv1.ConditionTrue;
     operatorv1.Reason := "";
     operatorv1.Message := "" |}.

Definition setEnabled : Prog (option error) :=
  ret <- call (UpdateStatus
      [v1helpers.UpdateConditionFn availableCnd;
       removeConditionFn (operatorConditionPrefix +:+ "Disabled")]) ;;
  let '(_, _, err) := ret in Ret err.

Definition disabledCnd (msg : string) : operatorv1.OperatorCondition :=
  {| operatorv1.Type_ := operatorConditionPrefix +:+ "Disabled";
     operatorv1.Status := operatorv1.ConditionTrue;
     operatorv1.Reason := "NoManila";
     operatorv1.Message := msg |}.

Definition setDisabled (msg : string) : Prog (option error) :=
  ret <- call (UpdateStatus
      [v1helpers.UpdateConditionFn (disabledCnd msg);
       removeConditionFn
         (operatorConditionPrefix +:+ operatorv1.OperatorStatusTypeAvailable)]) ;;
  let '(_, _, err) := ret in Ret err.

Definition withObjectMeta (sc : storagev1.StorageClass)
    (meta : metav1.ObjectMeta) : storagev1.StorageClass :=
  {| storagev1.ObjectMeta := meta;
     storagev1.Provisioner := storagev1.Provisioner sc;
     storagev1.Parameters := storagev1.Parameters sc;
     storagev1.ReclaimPolicy := storagev1.ReclaimPolicy sc;
     storagev1.MountOptions := storagev1.MountOptions sc;
     storagev1.AllowVolumeExpansion := storagev1.AllowVolumeExpansion sc;
     storagev1.VolumeBindingMode := storagev1.VolumeBindingMode sc |}.

(** The last two lines of [applyStorageClass]. *)
Definition resourceapplyStorageClass (expected : storagev1.StorageClass)
  : Prog (option error) :=
  ret <- call (ApplyStorageClass expected) ;;
  let '(_, _, err) := ret in Ret err.

Definition applyStorageClass (expected : storagev1.StorageClass)
  : Prog (option error) :=
  let name := metav1.Name (storagev1.ObjectMeta expected) in
  got <- call (ListerGet name) ;;
  match got with
  | Ok current =>
      if negb (DeepEqual (storagev1.Parameters expected)
                         (storagev1.Parameters current))
      then
        derr <- call (DeleteStorageClass name) ;;
        match derr with
        | Some err =>
            Ret (if apierrors.IsNotFound err then None else Some err)
        | None =>
            let '(_, merged) :=
              resourcemerge.EnsureObjectMeta
                (storagev1.ObjectMeta current)
                (storagev1.ObjectMeta expected) in
            resourceapplyStorageClass (withObjectMeta expected merged)
        end
      else resourceapplyStorageClass expected
  | Err _ => resourceapplyStorageClass expected
  end.

Section WithUtil.

(** The constants of package [util], which is not under src/. *)
Variables (StorageClassNamePrefix ManilaSecretName OperatorNamespace : string).

Definition generateStorageClass (shareType : sharetypes.ShareType)
  : storagev1.StorageClass :=
  let storageClassName := StorageClassNamePrefix +:+ sharetypes.Name shareType in
  {| storagev1.ObjectMeta :=
       {| metav1.Name := storageClassName;
          metav1.Namespace := "";
          metav1.UID := "";
          metav1.ResourceVersion := "";
          metav1.Labels := ∅;
          metav1.Annotations := ∅ |};
     storagev1.Provisioner := "manila.csi.openstack.org";
     storagev1.Parameters := Some (list_to_map [
       ("type", sharetypes.Name shareType);
       ("csi.storage.k8s.io/provisioner-secret-name", ManilaSecretName);
       ("csi.storage.k8s.io/provisioner-secret-namespace", OperatorNamespace);
       ("csi.storage.k8s.io/node-stage-secret-name", ManilaSecretName);
       ("csi.storage.k8s.io/node-stage-secret-namespace", OperatorNamespace);
       ("csi.storage.k8s.io/node-publish-secret-name", ManilaSecretName);
       ("csi.storage.k8s.io/node-publish-secret-namespace", OperatorNamespace)
     ]);
     storagev1.ReclaimPolicy := None;
     storagev1.MountOptions := [];
     storagev1.AllowVolumeExpansion := None;
     storagev1.VolumeBindingMode := None |}.

(** The [for ... range shareTypes] loop, with [errs] as it stands. *)
Fixpoint syncStorageClassesLoop (shareTypes : list sharetypes.ShareType)
    (errs : list error) : Prog (list error) :=
  match shareTypes with
  | [] => Ret errs
  | shareType :: rest =>
      let sc := generateStorageClass shareType in
      err <- applyStorageClass sc ;;
      syncStorageClassesLoop rest
        (match err with
         | Some e => errs ++ [e]
         | None => errs
         end)
  end.

Definition syncStorageClasses (shareTypes : list sharetypes.ShareType)
  : Prog (option error) :=
  errs <- syncStorageClassesLoop shareTypes [] ;;
  if negb (length errs =? 0)%nat then Ret (errors.NewAggregate errs)
  else Ret None.

(** [for _, ctrl := range c.csiControllers { go ctrl.Run(ctx, 1) }] *)
Fixpoint startControllers (ctrls : list Runnable) : Prog unit :=
  match ctrls with
  | [] => Ret tt
  | ctrl :: rest => _ <- call (GoRun ctrl 1) ;; startControllers rest
  end.

(** [sync] returns its error with the controller as the call leaves it
    (the receiver is a pointer, [controllersRunning] is written through
    it). *)
Definition sync (c : Controller) : Prog (option error * Controller) :=
  st <- call GetOperatorState ;;
  match st with
  | Err err => Ret (Some err, c)
  | Ok (opSpec, _, _) =>
      if negb (String.eqb (operatorv1.ManagementState_ opSpec)
                          operatorv1.Managed)
      then Ret (None, c)
      else
        got <- call GetShareTypes ;;
        match got with
        | Err err =>
            match err with
            | ErrEndpointNotFound _ =>
                r <- setDisabled "This OpenStack does not provide Manila service" ;;
                Ret (r, c)
            | _ => Ret (Some err, c)
            end
        | Ok shareTypes =>
            if (length shareTypes =? 0)%nat
            then
              r <- setDisabled "Manila does not provide any share types" ;;
              Ret (r, c)
            else
              c <- (if negb (controllersRunning c)
                    then
                      _ <- startControllers (csiControllers c) ;;
                      Ret {| csiControllers := csiControllers c;
                             controllersRunning := true |}
                    else Ret c) ;;
              err <- syncStorageClasses shareTypes ;;
              match err with
              | Some e => Ret (Some e, c)
              | None => r <- setEnabled ;; Ret (r, c)
              end
        end
  end.

End WithUtil.

(** ** Reading a log *)

(** The controllers spawned, with their worker counts. *)
Definition launches (t : list Event) : list (Runnable * Z) :=
  omap (fun e =>
          match e with
          | Ev c _ =>
              match c with
              | GoRun ctrl workers => Some (ctrl, workers)
              | _ => None
              end
          end) t.

(** The update-function lists handed to [v1helpers.UpdateStatus]. *)
Definition statusUpdates (t : list Event)
  : list (list v1helpers.UpdateStatusFunc) :=
  omap (fun e =>
          match e with
          | Ev c _ =>
              match c with
              | UpdateStatus updateFuncs => Some updateFuncs
              | _ => None
              end
          end) t.

(** The names looked up in the lister, deleted, and the classes applied. *)
Definition lookups (t : list Event) : list string :=
  omap (fun e =>
          match e with
          | Ev c _ =>
              match c with
              | ListerGet name => Some name
              | _ => None
              end
          end) t.

Definition deletes (t : list Event) : list string :=
  omap (fun e =>
          match e with
          | Ev c _ =>
              match c with
              | DeleteStorageClass name => Some name
              | _ => None
              end
          end) t.

Definition applies (t : list Event) : list storagev1.StorageClass :=
  omap (fun e =>
          match e with
          | Ev c _ =>
              match c with
              | ApplyStorageClass required => Some required
              | _ => None
              end
          end) t.

(** Whether a sync got a non-empty share-type list from its probe. *)
Definition sawShareTypes (t : list Event) : bool :=
  existsb (fun e =>
             match e with
             | Ev c r =>
                 match c in Call R return R -> bool with
                 | GetShareTypes => fun r =>
                     match r with
                     | Ok (_ :: _) => true
                     | _ => false
                     end
                 | _ => fun _ => false
                 end r
             end) t.

(** ** The operator status store *)

Definition AvailableType : string :=
  operatorConditionPrefix +:+ operatorv1.OperatorStatusTypeAvailable.
Definition DisabledType : string := operatorConditionPrefix +:+ "Disabled".

(** At most one of Available=true and Disabled=true. *)
Definition exclusive (st : operatorv1.OperatorStatus) : bool :=
  negb (v1helpers.IsOperatorConditionTrue (operatorv1.Conditions st) AvailableType
        && v1helpers.IsOperatorConditionTrue (operatorv1.Conditions st) DisabledType).

Definition isUpdateStatus {R : Type} (c : Call R) : bool :=
  match c with
  | UpdateStatus _ => true
  | _ => false
  end.

(** Modelled from the spec: the contract of [v1helpers.UpdateStatus]
    against the operator status store (library-go and the API server, not
    under src/).  Section 6: an atomic conditional update.  An update that
    returns no error has stored the status its update functions compute
    from the stored one; an update that returns an error has stored
    nothing; no other call writes the status. *)
Definition StatusStore {W : Type} (h : Handler W)
    (status : W -> operatorv1.OperatorStatus) : Prop :=
  (forall updateFuncs w,
      match (h _ (UpdateStatus updateFuncs) w).1.2 with
      | None =>
          v1helpers.applyUpdateFuncs updateFuncs (status w)
          = (status (h _ (UpdateStatus updateFuncs) w).2, None)
      | Some _ => status (h _ (UpdateStatus updateFuncs) w).2 = status w
      end)
  /\ (forall R (c : Call R) w,
         isUpdateStatus c = false -> status (h _ c w).2 = status w).

(** ** A cluster in memory

    The environment used to run the controller on concrete inputs: an
    operator status store, a share-type probe, a lister cache and the
    storage classes behind it, each with the error it is set to return. *)
Module fake.

Record World : Type := {
  getStateErr : option error;
  spec : operatorv1.OperatorSpec;
  status : operatorv1.OperatorStatus;
  updateErr : option error;
  shareTypes : res (list sharetypes.ShareType);
  listErr : gmap string error;
  cache : gmap string storagev1.StorageClass;
  classes : gmap string storagev1.StorageClass;
  deleteErr : gmap string error;
  applyErr : gmap string error;
  running : list (Runnable * Z)
}.

Definition notFound (name : string) : error :=
  StatusError apierrors.StatusReasonNotFound name.

Definition withStatus (w : World) (st : operatorv1.OperatorStatus) : World :=
  {| getStateErr := getStateErr w; spec := spec w; status := st;
     updateErr := updateErr w; shareTypes := shareTypes w;
     listErr := listErr w; cache := cache w; classes := classes w; deleteErr := deleteErr w;
     applyErr := applyErr w; running := running w |}.

Definition withClasses (w : World)
    (cs : gmap string storagev1.StorageClass) : World :=
  {| getStateErr := getStateErr w; spec := spec w; status := status w;
     updateErr := updateErr w; shareTypes := shareTypes w;
     listErr := listErr w; cache := cache w; classes := cs; deleteErr := deleteErr w;
     applyErr := applyErr w; running := running w |}.

Definition withRunning (w : World) (rs : list (Runnable * Z)) : World :=
  {| getStateErr := getStateErr w; spec := spec w; status := status w;
     updateErr := updateErr w; shareTypes := shareTypes w;
     listErr := listErr w; cache := cache w; classes := classes w; deleteErr := deleteErr w;
     applyErr := applyErr w; running := rs |}.

Definition handle : Handler World :=
  fun R c =>
    match c in Call R return World -> R * World with
    | GetOperatorState => fun w =>
        (match getStateErr w with
         | Some err => Err err
         | None => Ok (spec w, status w, "1")
         end, w)
    | GetShareTypes => fun w => (shareTypes w, w)
    | ListerGet name => fun w =>
        (match listErr w !! name with
         | Some err => Err err
         | None =>
             match cache w !! name with
             | Some sc => Ok sc
             | None => Err (notFound name)
             end
         end, w)
    | DeleteStorageClass name => fun w =>
        match deleteErr w !! name with
        | Some err => (Some err, w)
        | None =>
            match classes w !! name with
            | Some _ => (None, withClasses w (delete name (classes w)))
            | None => (Some (notFound name), w)
            end
        end
    | ApplyStorageClass required => fun w =>
        let name := metav1.Name (storagev1.ObjectMeta required) in
        match applyErr w !! name with
        | Some err => ((None, false, Some err), w)
        | None =>
            ((Some required, true, None),
             withClasses w (<[name := required]> (classes w)))
        end
    | UpdateStatus updateFuncs => fun w =>
        match updateErr w with
        | Some err => ((None, false, Some err), w)
        | None =>
            match v1helpers.applyUpdateFuncs updateFuncs (status w) with
            | (st, None) => ((Some st, true, None), withStatus w st)
            | (_, Some err) => ((None, false, Some err), w)
            end
        end
    | GoRun ctrl workers => fun w =>
        (tt, withRunning w (running w ++ [(ctrl, workers)]))
    end.

End fake.

(** ** Derived notions used in the statements *)

Definition isErrEndpointNotFound (err : error) : bool :=
  match err with
  | ErrEndpointNotFound _ => true
  | _ => false
  end.

Definition enabledUpdate : list v1helpers.UpdateStatusFunc :=
  [v1helpers.UpdateConditionFn availableCnd; removeConditionFn DisabledType].

Definition disabledUpdate (msg : string) : list v1helpers.UpdateStatusFunc :=
  [v1helpers.UpdateConditionFn (disabledCnd msg);
   removeConditionFn AvailableType].

(** The items of a share-type list run one after the other: what each
    returned, and the calls each made. *)
Fixpoint runItems {W : Type} (h : Handler W)
    (generate : sharetypes.ShareType -> storagev1.StorageClass)
    (shareTypes : list sharetypes.ShareType) (w : W)
  : list (option error) * W * list (list Event) :=
  match shareTypes with
  | [] => ([], w, [])
  | shareType :: rest =>
      let '(err, w1, t) := interp h (applyStorageClass (generate shareType)) w in
      let '(errs, w2, ts) := runItems h generate rest w1 in
      (err :: errs, w2, t :: ts)
  end.

(** The errors among the returned values, in order. *)
Definition failures (rets : list (option error)) : list error :=
  omap id rets.

(** The world after the controllers are spawned. *)
Definition spawned {W : Type} (h : Handler W) (ctrls : list Runnable) (w : W) : W :=
  foldl (fun w ctrl => (h _ (GoRun ctrl 1) w).2) w ctrls.

Definition started (c : Controller) : Controller :=
  {| csiControllers := csiControllers c; controllersRunning := true |}.

(** The controllers spawned by a sync that finds share types, and the
    controller afterwards. *)
Definition launchLog (c : Controller) : list Event :=
  if controllersRunning c then []
  else map (fun ctrl => Ev (GoRun ctrl 1) tt) (csiControllers c).

Definition launched (c : Controller) : Controller :=
  if controllersRunning c then c else started c.

(** [n] syncs one after the other, each starting from the controller and
    the world the one before left: the controller and the world at the end,
    and the log of each sync. *)
Fixpoint runSyncs {W : Type} (h : Handler W)
    (sync : Controller -> Prog (option error * Controller))
    (n : nat) (c : Controller) (w : W)
  : Controller * W * list (list Event) :=
  match n with
  | O => (c, w, [])
  | S m =>
      let '(ret, w1, t) := interp h (sync c) w in
      let '(c2, w2, ts) := runSyncs h sync m ret.2 w1 in
      (c2, w2, t :: ts)
  end.

Definition oneWorker (ctrls : list Runnable) : list (Runnable * Z) :=
  map (fun ctrl => (ctrl, 1%Z)) ctrls.

(** The six secret-reference parameters. *)
Definition secretParameters (ManilaSecretName OperatorNamespace : string)
  : gmap string string :=
  list_to_map [
    ("csi.storage.k8s.io/provisioner-secret-name", ManilaSecretName);
    ("csi.storage.k8s.io/provisioner-secret-namespace", OperatorNamespace);
    ("csi.storage.k8s.io/node-stage-secret-name", ManilaSecretName);
    ("csi.storage.k8s.io/node-stage-secret-namespace", OperatorNamespace);
    ("csi.storage.k8s.io/node-publish-secret-name", ManilaSecretName);
    ("csi.storage.k8s.io/node-publish-secret-namespace", OperatorNamespace)
  ].

(** ** Concrete inputs *)

Module examples.

Definition prefix : string := "manila-".
Definition secretName : string := "csi-manila-secrets".
Definition namespace : string := "openshift-cluster-csi-drivers".

Definition generate : sharetypes.ShareType -> storagev1.StorageClass :=
  generateStorageClass prefix secretName namespace.

Definition shareType (name : string) : sharetypes.ShareType :=
  {| sharetypes.ID := name;
     sharetypes.Name := name;
     sharetypes.IsPublic := true;
     sharetypes.RequiredExtraSpecs := ∅;
     sharetypes.ExtraSpecs := ∅ |}.

Definition managed : operatorv1.OperatorSpec :=
  {| operatorv1.ManagementState_ := operatorv1.Managed;
     operatorv1.LogLevel := "Normal" |}.

Definition unmanaged : operatorv1.OperatorSpec :=
  {| operatorv1.ManagementState_ := operatorv1.Unmanaged;
     operatorv1.LogLevel := "Normal" |}.

Definition noConditions : operatorv1.OperatorStatus :=
  {| operatorv1.ObservedGeneration := 1;
     operatorv1.Conditions := [];
     operatorv1.Version := "4.6.0";
     operatorv1.ReadyReplicas := 0 |}.

(** A class created for share type "default" by an operator that ran in
    another namespace, since marked as the default class by an admin. *)
Definition oldDefault : storagev1.StorageClass :=
  let sc := generateStorageClass prefix secretName "openshift-manila-csi-driver"
              (shareType "default") in
  withObjectMeta sc
    {| metav1.Name := "manila-default";
       metav1.Namespace := "";
       metav1.UID := "8f2c";
       metav1.ResourceVersion := "1207";
       metav1.Labels := ∅;
       metav1.Annotations :=
         {[ storagev1.IsDefaultStorageClassAnnotation := "true" ]} |}.

(** A cluster with two share types and no storage class yet. *)
Definition cluster : fake.World :=
  {| fake.getStateErr := None;
     fake.spec := managed;
     fake.status := noConditions;
     fake.updateErr := None;
     fake.shareTypes := Ok [shareType "default"; shareType "fast"];
     fake.listErr := ∅;
     fake.cache := ∅;
     fake.classes := ∅;
     fake.deleteErr := ∅;
     fake.applyErr := ∅;
     fake.running := [] |}.

Definition withStore (w : fake.World)
    (cache classes : gmap string storagev1.StorageClass) : fake.World :=
  {| fake.getStateErr := fake.getStateErr w;
     fake.spec := fake.spec w;
     fake.status := fake.status w;
     fake.updateErr := fake.updateErr w;
     fake.shareTypes := fake.shareTypes w;
     fake.listErr := fake.listErr w;
     fake.cache := cache;
     fake.classes := classes;
     fake.deleteErr := fake.deleteErr w;
     fake.applyErr := fake.applyErr w;
     fake.running := fake.running w |}.

(** The old class is in the cluster and in the lister cache. *)
Definition upgraded : fake.World :=
  withStore cluster {[ "manila-default" := oldDefault ]}
                    {[ "manila-default" := oldDefault ]}.

(** The old class is still in the lister cache, but another actor has
    already deleted it from the cluster. *)
Definition staleCache : fake.World :=
  withStore cluster {[ "manila-default" := oldDefault ]} ∅.

(** The lister fails for "manila-default" with an error that is not a
    "not found". *)
Definition brokenLister : fake.World :=
  {| fake.getStateErr := None;
     fake.spec := managed;
     fake.status := noConditions;
     fake.updateErr := None;
     fake.shareTypes := Ok [shareType "default"; shareType "fast"];
     fake.listErr := {[ "manila-default" := ErrOther "cache not synced" ]};
     fake.cache := {[ "manila-default" := oldDefault ]};
     fake.classes := {[ "manila-default" := oldDefault ]};
     fake.deleteErr := ∅;
     fake.applyErr := ∅;
     fake.running := [] |}.

(** A cluster whose probe answers [r] and whose operator status is [st]. *)
Definition probing (r : res (list sharetypes.ShareType))
    (st : operatorv1.OperatorStatus) : fake.World :=
  {| fake.getStateErr := None;
     fake.spec := managed;
     fake.status := st;
     fake.updateErr := None;
     fake.shareTypes := r;
     fake.listErr := ∅;
     fake.cache := ∅;
     fake.classes := ∅;
     fake.deleteErr := ∅;
     fake.applyErr := ∅;
     fake.running := [] |}.

Definition available : operatorv1.OperatorStatus :=
  v1helpers.withConditions noConditions [availableCnd].

Definition controller : Controller :=
  {| csiControllers := ["manila"; "nfs"]; controllersRunning := false |}.

End examples.

(** * Properties *)

(** ** Running programs *)

Lemma interp_bind {W A B : Type} (h : Handler W) (p : Prog A)
    (f : A -> Prog B) (w : W) :
  interp h (bind p f) w
  = let '(a, w1, t1) := interp h p w in
    let '(b, w2, t2) := interp h (f a) w1 in
    (b, w2, t1 ++ t2).
Proof.
  revert w. induction p as [a | R c k IH]; intros w; simpl.
  - destruct (interp h (f a) w) as [[b w2] t2]. reflexivity.
  - destruct (h R c w) as [r w1]. rewrite IH.
    destruct (interp h (k r) w1) as [[a w2] t1].
    destruct (interp h (f a) w2) as [[b w3] t2]. reflexivity.
Qed.

(** ** One storage class *)

(** Name the answer of the environment to the apply call and compute. *)
Ltac answer_apply h :=
  match goal with
  | |- context [h ?R (ApplyStorageClass ?sc) ?w] =>
      destruct (h R (ApplyStorageClass sc) w) as [[[? ?] ?] ?]; reflexivity
  end.

Lemma DeepEqual_spec (x y : option (gmap string string)) :
  DeepEqual x y = true <-> x = y.
Proof. unfold DeepEqual. apply bool_decide_eq_true. Qed.

Lemma DeepEqual_eq (x y : option (gmap string string)) :
  x = y -> DeepEqual x y = true.
Proof. apply DeepEqual_spec. Qed.

Lemma DeepEqual_ne (x y : option (gmap string string)) :
  x <> y -> DeepEqual x y = false.
Proof.
  intros Hne. destruct (DeepEqual x y) eqn:E; [| reflexivity].
  apply DeepEqual_spec in E. contradiction.
Qed.

Section ApplyStorageClass.

Context {W : Type} (h : Handler W).
Variables (expected : storagev1.StorageClass) (w : W).

Let name := metav1.Name (storagev1.ObjectMeta expected).

(** The lister has no answer: the class is applied as it was generated. *)
Lemma applyStorageClass_absent e w1 :
  h _ (ListerGet name) w = (Err e, w1) ->
  interp h (applyStorageClass expected) w
  = ((h _ (ApplyStorageClass expected) w1).1.2,
     (h _ (ApplyStorageClass expected) w1).2,
     [Ev (ListerGet name) (Err e);
      Ev (ApplyStorageClass expected) (h _ (ApplyStorageClass expected) w1).1]).
Proof.
  intros Hget. unfold applyStorageClass. fold name. simpl. rewrite Hget.
  simpl. answer_apply h.
Qed.

(** The observed class has the expected parameters. *)
Lemma applyStorageClass_same current w1 :
  h _ (ListerGet name) w = (Ok current, w1) ->
  storagev1.Parameters expected = storagev1.Parameters current ->
  interp h (applyStorageClass expected) w
  = ((h _ (ApplyStorageClass expected) w1).1.2,
     (h _ (ApplyStorageClass expected) w1).2,
     [Ev (ListerGet name) (Ok current);
      Ev (ApplyStorageClass expected) (h _ (ApplyStorageClass expected) w1).1]).
Proof.
  intros Hget Heq. unfold applyStorageClass. fold name. simpl. rewrite Hget.
  rewrite DeepEqual_eq by exact Heq. simpl. answer_apply h.
Qed.

(** The parameters differ and the delete fails. *)
Lemma applyStorageClass_delete_error current w1 err w2 :
  h _ (ListerGet name) w = (Ok current, w1) ->
  storagev1.Parameters expected <> storagev1.Parameters current ->
  h _ (DeleteStorageClass name) w1 = (Some err, w2) ->
  interp h (applyStorageClass expected) w
  = (if apierrors.IsNotFound err then None else Some err, w2,
     [Ev (ListerGet name) (Ok current);
      Ev (DeleteStorageClass name) (Some err)]).
Proof.
  intros Hget Hne Hdel. unfold applyStorageClass. fold name. simpl.
  rewrite Hget. rewrite DeepEqual_ne by exact Hne. simpl.
  rewrite Hdel. reflexivity.
Qed.

(** The parameters differ and the delete succeeds. *)
Lemma applyStorageClass_replace current w1 w2 :
  h _ (ListerGet name) w = (Ok current, w1) ->
  storagev1.Parameters expected <> storagev1.Parameters current ->
  h _ (DeleteStorageClass name) w1 = (None, w2) ->
  let merged :=
    withObjectMeta expected
      (resourcemerge.EnsureObjectMeta (storagev1.ObjectMeta current)
         (storagev1.ObjectMeta expected)).2 in
  interp h (applyStorageClass expected) w
  = ((h _ (ApplyStorageClass merged) w2).1.2,
     (h _ (ApplyStorageClass merged) w2).2,
     [Ev (ListerGet name) (Ok current);
      Ev (DeleteStorageClass name) None;
      Ev (ApplyStorageClass merged) (h _ (ApplyStorageClass merged) w2).1]).
Proof.
  intros Hget Hne Hdel merged. unfold applyStorageClass. fold name. simpl.
  rewrite Hget. rewrite DeepEqual_ne by exact Hne. simpl.
  rewrite Hdel. subst merged.
  destruct (resourcemerge.EnsureObjectMeta _ _) as [modified meta].
  simpl. answer_apply h.
Qed.

End ApplyStorageClass.

(** ** Replacement of a storage class *)

(** C10.  When the lister lookup of the observed class returns an error, of
    whatever kind, [applyStorageClass] makes exactly one more call, the apply
    of the expected class as it was handed in, and returns the error of that
    call: no delete is issued and the lookup error is not returned. *)
Theorem lister_error_means_absent {W : Type} (h : Handler W)
    (expected : storagev1.StorageClass) (w w1 : W) (e : error) :
  let name := metav1.Name (storagev1.ObjectMeta expected) in
  h _ (ListerGet name) w = (Err e, w1) ->
  let answer := h _ (ApplyStorageClass expected) w1 in
  let run := interp h (applyStorageClass expected) w in
  run = (answer.1.2, answer.2,
         [Ev (ListerGet name) (Err e); Ev (ApplyStorageClass expected) answer.1])
  /\ deletes run.2 = []
  /\ applies run.2 = [expected].
Proof.
  intros name Hget answer run. subst run answer.
  rewrite (applyStorageClass_absent h expected w e w1 Hget).
  repeat split.
Qed.

Lemma lister_error_means_absent_witness :
  let expected := examples.generate (examples.shareType "default") in
  let run := interp fake.handle (applyStorageClass expected) examples.brokenLister in
  fake.handle _ (ListerGet "manila-default") examples.brokenLister
  = (Err (ErrOther "cache not synced"), examples.brokenLister)
  /\ run.1.1 = None
  /\ deletes run.2 = []
  /\ applies run.2 = [expected].
Proof.
  pose proof (lister_error_means_absent fake.handle
                (examples.generate (examples.shareType "default"))
                examples.brokenLister examples.brokenLister
                (ErrOther "cache not synced") eq_refl) as [Hrun [Hdel Happ]].
  intros expected run. split; [reflexivity |].
  split; [| split; [exact Hdel | exact Happ]].
  subst run expected. rewrite Hrun. reflexivity.
Defined.

(** What the merge leaves in each field. *)

Lemma SetStringIfSet_value (existing required : string) :
  (resourcemerge.SetStringIfSet existing required).2
  = if (String.length required =? 0)%nat then existing else required.
Proof.
  unfold resourcemerge.SetStringIfSet.
  destruct (String.length required =? 0)%nat; [reflexivity |].
  destruct (bool_decide (required = existing)) eqn:E; [| reflexivity].
  apply bool_decide_eq_true in E. simpl. congruence.
Qed.

Lemma MergeMap_lookup (existing required : gmap string string) (k : string) :
  (resourcemerge.MergeMap existing required).2 !! k
  = match required !! k with
    | Some v => Some v
    | None => existing !! k
    end.
Proof.
  unfold resourcemerge.MergeMap. simpl. rewrite lookup_union.
  destruct (required !! k), (existing !! k); reflexivity.
Qed.

Lemma MergeMap_empty (existing : gmap string string) :
  (resourcemerge.MergeMap existing ∅).2 = existing.
Proof. unfold resourcemerge.MergeMap. simpl. apply (left_id ∅ (∪)). Qed.

Section EnsureObjectMeta.

Variables (existing required : metav1.ObjectMeta).

Let merged := (resourcemerge.EnsureObjectMeta existing required).2.

Lemma EnsureObjectMeta_value :
  merged
  = {| metav1.Name :=
         (resourcemerge.SetStringIfSet (metav1.Name existing)
            (metav1.Name required)).2;
       metav1.Namespace :=
         (resourcemerge.SetStringIfSet (metav1.Namespace existing)
            (metav1.Namespace required)).2;
       metav1.UID := metav1.UID existing;
       metav1.ResourceVersion := metav1.ResourceVersion existing;
       metav1.Labels :=
         (resourcemerge.MergeMap (metav1.Labels existing)
            (metav1.Labels required)).2;
       metav1.Annotations :=
         (resourcemerge.MergeMap (metav1.Annotations existing)
            (metav1.Annotations required)).2 |}.
Proof.
  subst merged. unfold resourcemerge.EnsureObjectMeta.
  destruct (resourcemerge.SetStringIfSet (metav1.Namespace existing) _).
  destruct (resourcemerge.SetStringIfSet (metav1.Name existing) _).
  destruct (resourcemerge.MergeMap (metav1.Labels existing) _).
  destruct (resourcemerge.MergeMap (metav1.Annotations existing) _).
  reflexivity.
Qed.

Lemma EnsureObjectMeta_Annotations k :
  metav1.Annotations merged !! k
  = match metav1.Annotations required !! k with
    | Some v => Some v
    | None => metav1.Annotations existing !! k
    end.
Proof. rewrite EnsureObjectMeta_value. simpl. apply MergeMap_lookup. Qed.

Lemma EnsureObjectMeta_Labels k :
  metav1.Labels merged !! k
  = match metav1.Labels required !! k with
    | Some v => Some v
    | None => metav1.Labels existing !! k
    end.
Proof. rewrite EnsureObjectMeta_value. simpl. apply MergeMap_lookup. Qed.

Lemma EnsureObjectMeta_Name :
  metav1.Name merged
  = if (String.length (metav1.Name required) =? 0)%nat
    then metav1.Name existing else metav1.Name required.
Proof. rewrite EnsureObjectMeta_value. simpl. apply SetStringIfSet_value. Qed.

Lemma EnsureObjectMeta_Namespace :
  metav1.Namespace merged
  = if (String.length (metav1.Namespace required) =? 0)%nat
    then metav1.Namespace existing else metav1.Namespace required.
Proof. rewrite EnsureObjectMeta_value. simpl. apply SetStringIfSet_value. Qed.

Lemma EnsureObjectMeta_carried :
  metav1.UID merged = metav1.UID existing
  /\ metav1.ResourceVersion merged = metav1.ResourceVersion existing.
Proof. rewrite EnsureObjectMeta_value. split; reflexivity. Qed.

End EnsureObjectMeta.

(** C2.  When the lister returns an observed class whose parameters are not
    deeply equal to the expected ones and the delete returns no error,
    [applyStorageClass] issues, after the lookup, one delete of that name and
    then one apply, the call that creates the class, and nothing else.  The
    class it hands to the apply keeps the provisioner and parameters of the
    expected class, and its metadata is the observed metadata with the
    expected entries laid over it: every annotation and label the expected
    class sets has the expected value, every other one is as observed, a
    non-empty expected name or namespace wins, and the remaining fields are
    the observed ones. *)
Theorem replacement_deletes_then_creates {W : Type} (h : Handler W)
    (expected current : storagev1.StorageClass) (w w1 w2 : W) :
  let name := metav1.Name (storagev1.ObjectMeta expected) in
  h _ (ListerGet name) w = (Ok current, w1) ->
  storagev1.Parameters expected <> storagev1.Parameters current ->
  h _ (DeleteStorageClass name) w1 = (None, w2) ->
  let observed := storagev1.ObjectMeta current in
  let desired := storagev1.ObjectMeta expected in
  let created :=
    withObjectMeta expected
      (resourcemerge.EnsureObjectMeta observed desired).2 in
  let meta := storagev1.ObjectMeta created in
  let answer := h _ (ApplyStorageClass created) w2 in
  let run := interp h (applyStorageClass expected) w in
  run = (answer.1.2, answer.2,
         [Ev (ListerGet name) (Ok current);
          Ev (DeleteStorageClass name) None;
          Ev (ApplyStorageClass created) answer.1])
  /\ deletes run.2 = [name]
  /\ applies run.2 = [created]
  /\ storagev1.Provisioner created = storagev1.Provisioner expected
  /\ storagev1.Parameters created = storagev1.Parameters expected
  /\ (forall k, metav1.Annotations meta !! k
                = match metav1.Annotations desired !! k with
                  | Some v => Some v
                  | None => metav1.Annotations observed !! k
                  end)
  /\ (forall k, metav1.Labels meta !! k
                = match metav1.Labels desired !! k with
                  | Some v => Some v
                  | None => metav1.Labels observed !! k
                  end)
  /\ metav1.Name meta
     = (if (String.length (metav1.Name desired) =? 0)%nat
        then metav1.Name observed else metav1.Name desired)
  /\ metav1.Namespace meta
     = (if (String.length (metav1.Namespace desired) =? 0)%nat
        then metav1.Namespace observed else metav1.Namespace desired)
  /\ metav1.UID meta = metav1.UID observed
  /\ metav1.ResourceVersion meta = metav1.ResourceVersion observed.
Proof.
  intros name Hget Hne Hdel observed desired created meta answer run.
  subst run answer.
  rewrite (applyStorageClass_replace h expected w current w1 w2 Hget Hne Hdel).
  fold observed desired created.
  split; [reflexivity |].
  split; [reflexivity |].
  split; [reflexivity |].
  split; [reflexivity |].
  split; [reflexivity |].
  subst meta created. simpl.
  split; [apply EnsureObjectMeta_Annotations |].
  split; [apply EnsureObjectMeta_Labels |].
  split; [apply EnsureObjectMeta_Name |].
  split; [apply EnsureObjectMeta_Namespace |].
  apply EnsureObjectMeta_carried.
Qed.

Lemma replacement_deletes_then_creates_witness :
  let expected := examples.generate (examples.shareType "default") in
  let w2 := (fake.handle _ (DeleteStorageClass "manila-default")
               examples.upgraded).2 in
  let run := interp fake.handle (applyStorageClass expected) examples.upgraded in
  fake.handle _ (ListerGet "manila-default") examples.upgraded
  = (Ok examples.oldDefault, examples.upgraded)
  /\ storagev1.Parameters expected <> storagev1.Parameters examples.oldDefault
  /\ fake.handle _ (DeleteStorageClass "manila-default") examples.upgraded
     = (None, w2)
  /\ deletes run.2 = ["manila-default"]
  /\ (exists created,
        applies run.2 = [created]
        /\ metav1.Annotations (storagev1.ObjectMeta created)
             !! storagev1.IsDefaultStorageClassAnnotation = Some "true"
        /\ storagev1.Parameters created = storagev1.Parameters expected).
Proof.
  intros expected w2 run.
  assert (Hne : storagev1.Parameters expected
                <> storagev1.Parameters examples.oldDefault).
  { intros Heq. apply DeepEqual_eq in Heq. vm_compute in Heq. discriminate. }
  pose proof (replacement_deletes_then_creates fake.handle expected
                examples.oldDefault examples.upgraded examples.upgraded w2
                eq_refl Hne eq_refl)
    as (_ & Hdel & Happ & _ & Hpar & Hann & _).
  split; [reflexivity |].
  split; [exact Hne |].
  split; [reflexivity |].
  split; [exact Hdel |].
  eexists. split; [exact Happ |].
  split; [| exact Hpar].
  rewrite Hann. reflexivity.
Defined.

(** For a class that [generateStorageClass] built, whose metadata sets the
    name only, the merge hands back the observed labels and annotations. *)
Lemma generated_class_keeps_observed_maps
    (StorageClassNamePrefix ManilaSecretName OperatorNamespace : string)
    (shareType : sharetypes.ShareType) (observed : metav1.ObjectMeta) :
  let desired :=
    storagev1.ObjectMeta
      (generateStorageClass StorageClassNamePrefix ManilaSecretName
         OperatorNamespace shareType) in
  let merged := (resourcemerge.EnsureObjectMeta observed desired).2 in
  metav1.Annotations merged = metav1.Annotations observed
  /\ metav1.Labels merged = metav1.Labels observed
  /\ metav1.Namespace merged = metav1.Namespace observed.
Proof.
  intros desired merged. subst merged. rewrite EnsureObjectMeta_value.
  subst desired.
  cbn [generateStorageClass storagev1.ObjectMeta metav1.Annotations
       metav1.Labels metav1.Namespace].
  rewrite !MergeMap_empty. repeat split.
Qed.

(** C1.  What the code does when the delete of the observed class answers
    "not found": the error is cleared and returned at once, so the item
    reports success after the lookup and the delete, and no apply call is
    made for it. *)
Theorem delete_not_found_returns_before_create {W : Type} (h : Handler W)
    (expected current : storagev1.StorageClass) (w w1 w2 : W) (err : error) :
  let name := metav1.Name (storagev1.ObjectMeta expected) in
  h _ (ListerGet name) w = (Ok current, w1) ->
  storagev1.Parameters expected <> storagev1.Parameters current ->
  h _ (DeleteStorageClass name) w1 = (Some err, w2) ->
  apierrors.IsNotFound err = true ->
  let run := interp h (applyStorageClass expected) w in
  run = (None, w2,
         [Ev (ListerGet name) (Ok current);
          Ev (DeleteStorageClass name) (Some err)])
  /\ applies run.2 = [].
Proof.
  intros name Hget Hne Hdel Hnf run. subst run.
  rewrite (applyStorageClass_delete_error h expected w current w1 err w2
             Hget Hne Hdel).
  rewrite Hnf. split; reflexivity.
Qed.

Lemma delete_not_found_returns_before_create_witness :
  let expected := examples.generate (examples.shareType "default") in
  let run := interp fake.handle (applyStorageClass expected) examples.staleCache in
  fake.handle _ (ListerGet "manila-default") examples.staleCache
  = (Ok examples.oldDefault, examples.staleCache)
  /\ storagev1.Parameters expected <> storagev1.Parameters examples.oldDefault
  /\ fake.handle _ (DeleteStorageClass "manila-default") examples.staleCache
     = (Some (fake.notFound "manila-default"), examples.staleCache)
  /\ apierrors.IsNotFound (fake.notFound "manila-default") = true
  /\ run.1.1 = None
  /\ applies run.2 = []
  /\ fake.classes run.1.2 !! "manila-default" = None.
Proof.
  intros expected run.
  assert (Hne : storagev1.Parameters expected
                <> storagev1.Parameters examples.oldDefault).
  { intros Heq. apply DeepEqual_eq in Heq. vm_compute in Heq. discriminate. }
  pose proof (delete_not_found_returns_before_create fake.handle expected
                examples.oldDefault examples.staleCache examples.staleCache
                examples.staleCache (fake.notFound "manila-default")
                eq_refl Hne eq_refl eq_refl) as [Hrun Happ].
  split; [reflexivity |].
  split; [exact Hne |].
  split; [reflexivity |].
  split; [reflexivity |].
  subst run. rewrite Hrun. repeat split.
Defined.

(** ** The status transitions *)

Section Transitions.

Context {W : Type} (h : Handler W).

Lemma interp_setEnabled (w : W) :
  interp h setEnabled w
  = ((h _ (UpdateStatus enabledUpdate) w).1.2,
     (h _ (UpdateStatus enabledUpdate) w).2,
     [Ev (UpdateStatus enabledUpdate) (h _ (UpdateStatus enabledUpdate) w).1]).
Proof.
  unfold setEnabled. simpl. fold DisabledType. fold enabledUpdate.
  destruct (h _ (UpdateStatus enabledUpdate) w) as [[[st written] err] w1].
  reflexivity.
Qed.

Lemma interp_setDisabled (msg : string) (w : W) :
  interp h (setDisabled msg) w
  = ((h _ (UpdateStatus (disabledUpdate msg)) w).1.2,
     (h _ (UpdateStatus (disabledUpdate msg)) w).2,
     [Ev (UpdateStatus (disabledUpdate msg))
         (h _ (UpdateStatus (disabledUpdate msg)) w).1]).
Proof.
  unfold setDisabled. simpl. fold AvailableType. fold (disabledUpdate msg).
  destruct (h _ (UpdateStatus (disabledUpdate msg)) w)
    as [[[st written] err] w1].
  reflexivity.
Qed.

End Transitions.

(** ** Conditions *)

Section Conditions.
Import operatorv1 v1helpers.

Lemma Find_Set_same (cs : list OperatorCondition) (new : OperatorCondition) :
  FindOperatorCondition (SetOperatorCondition cs new) (Type_ new) = Some new.
Proof.
  induction cs as [| c rest IH]; simpl.
  - rewrite bool_decide_eq_true_2 by reflexivity. reflexivity.
  - destruct (bool_decide (Type_ c = Type_ new)) eqn:E; simpl.
    + rewrite E. apply bool_decide_eq_true in E.
      destruct new as [ty s r m]. simpl in *. subst ty. reflexivity.
    + rewrite E. exact IH.
Qed.

Lemma Find_Set_other (cs : list OperatorCondition) (new : OperatorCondition)
    (ty : string) :
  ty <> Type_ new ->
  FindOperatorCondition (SetOperatorCondition cs new) ty
  = FindOperatorCondition cs ty.
Proof.
  intros Hne. induction cs as [| c rest IH]; simpl.
  - rewrite bool_decide_eq_false_2 by congruence. reflexivity.
  - destruct (bool_decide (Type_ c = Type_ new)) eqn:E; simpl.
    + apply bool_decide_eq_true in E.
      rewrite !bool_decide_eq_false_2 by congruence. reflexivity.
    + rewrite IH. reflexivity.
Qed.

Lemma Find_Remove_same (cs : list OperatorCondition) (ty : string) :
  FindOperatorCondition (RemoveOperatorCondition cs ty) ty = None.
Proof.
  induction cs as [| c rest IH]; simpl; [reflexivity |].
  destruct (bool_decide (Type_ c = ty)) eqn:E; simpl; [exact IH |].
  rewrite E. exact IH.
Qed.

Lemma Find_Remove_other (cs : list OperatorCondition) (ty ty' : string) :
  ty' <> ty ->
  FindOperatorCondition (RemoveOperatorCondition cs ty) ty'
  = FindOperatorCondition cs ty'.
Proof.
  intros Hne. induction cs as [| c rest IH]; simpl; [reflexivity |].
  destruct (bool_decide (Type_ c = ty)) eqn:E; simpl.
  - apply bool_decide_eq_true in E.
    rewrite bool_decide_eq_false_2 by congruence. exact IH.
  - rewrite IH. reflexivity.
Qed.

Lemma Available_not_Disabled : AvailableType <> DisabledType.
Proof. discriminate. Qed.

(** The two update functions of a transition, run on any status. *)
Lemma applyUpdateFuncs_set_remove (cnd : OperatorCondition) (ty : string)
    (st : OperatorStatus) :
  applyUpdateFuncs [UpdateConditionFn cnd; removeConditionFn ty] st
  = (withConditions st
       (RemoveOperatorCondition
          (SetOperatorCondition (Conditions st) cnd) ty), None).
Proof. reflexivity. Qed.

Lemma set_remove_conditions (cnd : OperatorCondition) (ty : string)
    (st : OperatorStatus) :
  ty <> Type_ cnd ->
  let st' := (applyUpdateFuncs [UpdateConditionFn cnd; removeConditionFn ty] st).1 in
  FindOperatorCondition (Conditions st') (Type_ cnd) = Some cnd
  /\ FindOperatorCondition (Conditions st') ty = None
  /\ (forall other, other <> Type_ cnd -> other <> ty ->
        FindOperatorCondition (Conditions st') other
        = FindOperatorCondition (Conditions st) other).
Proof.
  intros Hne st'. subst st'. rewrite applyUpdateFuncs_set_remove. simpl.
  split; [| split].
  - rewrite Find_Remove_other by congruence. apply Find_Set_same.
  - apply Find_Remove_same.
  - intros other H1 H2. rewrite Find_Remove_other by exact H2.
    apply Find_Set_other. exact H1.
Qed.

Lemma exclusive_of_absent (st : OperatorStatus) :
  FindOperatorCondition (Conditions st) AvailableType = None
  \/ FindOperatorCondition (Conditions st) DisabledType = None ->
  exclusive st = true.
Proof.
  unfold exclusive, IsOperatorConditionTrue.
  intros [H | H]; rewrite H; simpl; [reflexivity |].
  rewrite andb_false_r. reflexivity.
Qed.

End Conditions.

Lemma fake_StatusStore : StatusStore fake.handle fake.status.
Proof.
  split.
  - intros updateFuncs w. simpl.
    destruct (fake.updateErr w); simpl; [reflexivity |].
    destruct (v1helpers.applyUpdateFuncs updateFuncs (fake.status w))
      as [st [err |]]; reflexivity.
  - intros R c w Hc. destruct c; simpl in *; try discriminate; try reflexivity.
    + destruct (fake.deleteErr w !! name); [reflexivity |].
      destruct (fake.classes w !! name); reflexivity.
    + destruct (fake.applyErr w !! _); reflexivity.
Qed.

Section StatusTransitions.
Import operatorv1 v1helpers.

Context {W : Type} (h : Handler W) (status : W -> OperatorStatus).
Hypothesis store : StatusStore h status.

(** One update that sets [cnd] and removes the conditions of type [ty]:
    committed, it leaves [cnd] in place and no condition of type [ty];
    failed, it leaves the status alone. *)
Lemma transition_outcome (cnd : OperatorCondition) (ty : string) (w : W) :
  ty <> Type_ cnd ->
  let answer := h _ (UpdateStatus [UpdateConditionFn cnd; removeConditionFn ty]) w in
  (answer.1.2 = None ->
     FindOperatorCondition (Conditions (status answer.2)) (Type_ cnd) = Some cnd
     /\ FindOperatorCondition (Conditions (status answer.2)) ty = None)
  /\ (answer.1.2 <> None -> status answer.2 = status w).
Proof.
  intros Hne answer. subst answer.
  destruct store as [Hupdate _].
  specialize (Hupdate [UpdateConditionFn cnd; removeConditionFn ty] w).
  destruct ((h _ (UpdateStatus [UpdateConditionFn cnd; removeConditionFn ty]) w).1.2)
    as [err |].
  - split; [discriminate | intros _; exact Hupdate].
  - split; [intros _ | congruence].
    pose proof (set_remove_conditions cnd ty (status w) Hne) as (H1 & H2 & _).
    rewrite Hupdate in H1, H2. simpl in H1, H2. split; assumption.
Qed.

End StatusTransitions.

(** C4.  [setEnabled] and [setDisabled] each make one status update, which
    carries both changes.  Against a status store that applies an update
    whole or not at all, and from any status: a committed [setEnabled]
    leaves the Available condition true and no Disabled condition, a
    committed [setDisabled] leaves the Disabled condition true with reason
    "NoManila" and the given message and no Available condition, and a
    failed one leaves the status as it was.  So after a committed
    transition at most one of Available=true and Disabled=true holds, and a
    status in which at most one holds stays so through either call. *)
Theorem transitions_keep_conditions_exclusive {W : Type} (h : Handler W)
    (status : W -> operatorv1.OperatorStatus) :
  StatusStore h status ->
  forall (w : W) (msg : string),
    let find st := v1helpers.FindOperatorCondition (operatorv1.Conditions st) in
    let enabled := interp h setEnabled w in
    let disabled := interp h (setDisabled msg) w in
    (statusUpdates enabled.2 = [enabledUpdate] /\ length enabled.2 = 1%nat)
    /\ (enabled.1.1 = None ->
          find (status enabled.1.2) AvailableType = Some availableCnd
          /\ find (status enabled.1.2) DisabledType = None
          /\ exclusive (status enabled.1.2) = true)
    /\ (enabled.1.1 <> None -> status enabled.1.2 = status w)
    /\ (statusUpdates disabled.2 = [disabledUpdate msg]
        /\ length disabled.2 = 1%nat)
    /\ (disabled.1.1 = None ->
          find (status disabled.1.2) DisabledType = Some (disabledCnd msg)
          /\ find (status disabled.1.2) AvailableType = None
          /\ exclusive (status disabled.1.2) = true)
    /\ (disabled.1.1 <> None -> status disabled.1.2 = status w)
    /\ (exclusive (status w) = true ->
          exclusive (status enabled.1.2) = true
          /\ exclusive (status disabled.1.2) = true).
Proof.
  intros store w msg find enabled disabled. subst find enabled disabled.
  rewrite interp_setEnabled, interp_setDisabled. simpl.
  pose proof (transition_outcome h status store availableCnd DisabledType w
                (not_eq_sym Available_not_Disabled)) as [HEok HEerr].
  pose proof (transition_outcome h status store (disabledCnd msg) AvailableType w
                Available_not_Disabled) as [HDok HDerr].
  fold enabledUpdate in HEok, HEerr. fold (disabledUpdate msg) in HDok, HDerr.
  simpl in HEok, HDok.
  split; [split; reflexivity |].
  split.
  { intros Hok. destruct (HEok Hok) as [H1 H2].
    split; [exact H1 |]. split; [exact H2 |].
    apply exclusive_of_absent. right. exact H2. }
  split; [exact HEerr |].
  split; [split; reflexivity |].
  split.
  { intros Hok. destruct (HDok Hok) as [H1 H2].
    split; [exact H1 |]. split; [exact H2 |].
    apply exclusive_of_absent. left. exact H2. }
  split; [exact HDerr |].
  intros Hexcl. split.
  - destruct ((h _ (UpdateStatus enabledUpdate) w).1.2) as [err |] eqn:E.
    + rewrite HEerr by discriminate. exact Hexcl.
    + apply exclusive_of_absent. right. apply HEok. reflexivity.
  - destruct ((h _ (UpdateStatus (disabledUpdate msg)) w).1.2) as [err |] eqn:E.
    + rewrite HDerr by discriminate. exact Hexcl.
    + apply exclusive_of_absent. left. apply HDok. reflexivity.
Qed.

Lemma transitions_keep_conditions_exclusive_witness :
  let both :=
    fake.withStatus examples.cluster
      (v1helpers.withConditions examples.noConditions
         [availableCnd; disabledCnd "Manila does not provide any share types"]) in
  let enabled := interp fake.handle setEnabled both in
  let disabled := interp fake.handle (setDisabled "gone") both in
  StatusStore fake.handle fake.status
  /\ exclusive (fake.status both) = false
  /\ exclusive (fake.status enabled.1.2) = true
  /\ exclusive (fake.status disabled.1.2) = true
  /\ operatorv1.Conditions (fake.status disabled.1.2) = [disabledCnd "gone"].
Proof.
  intros both enabled disabled.
  pose proof (transitions_keep_conditions_exclusive fake.handle fake.status
                fake_StatusStore both "gone")
    as (_ & HE & _ & _ & HD & _).
  split; [exact fake_StatusStore |].
  split; [reflexivity |].
  split; [apply HE; reflexivity |].
  split; [apply HD; reflexivity |].
  reflexivity.
Defined.

(** ** The reconcile loop *)

Section Reconcile.

Variables (StorageClassNamePrefix ManilaSecretName OperatorNamespace : string).

Let generate :=
  generateStorageClass StorageClassNamePrefix ManilaSecretName OperatorNamespace.
Let loop :=
  syncStorageClassesLoop StorageClassNamePrefix ManilaSecretName OperatorNamespace.
Let syncAll :=
  syncStorageClasses StorageClassNamePrefix ManilaSecretName OperatorNamespace.

Context {W : Type} (h : Handler W).

Lemma loop_cons (shareType : sharetypes.ShareType)
    (rest : list sharetypes.ShareType) (errs : list error) :
  loop (shareType :: rest) errs
  = bind (applyStorageClass (generate shareType))
      (fun err => loop rest (match err with
                             | Some e => errs ++ [e]
                             | None => errs
                             end)).
Proof. reflexivity. Qed.

Lemma runItems_cons (shareType : sharetypes.ShareType)
    (rest : list sharetypes.ShareType) (w : W) :
  runItems h generate (shareType :: rest) w
  = let '(err, w1, t) := interp h (applyStorageClass (generate shareType)) w in
    let '(errs, w2, ts) := runItems h generate rest w1 in
    (err :: errs, w2, t :: ts).
Proof. reflexivity. Qed.

Lemma interp_loop (shareTypes : list sharetypes.ShareType)
    (errs : list error) (w : W) :
  interp h (loop shareTypes errs) w
  = let items := runItems h generate shareTypes w in
    (errs ++ failures items.1.1, items.1.2, concat items.2).
Proof.
  revert errs w. induction shareTypes as [| shareType rest IH]; intros errs w.
  - simpl. rewrite app_nil_r. reflexivity.
  - rewrite loop_cons, interp_bind, runItems_cons.
    destruct (interp h (applyStorageClass (generate shareType)) w)
      as [[err w1] t].
    rewrite IH.
    destruct (runItems h generate rest w1) as [[rets w2] ts]. simpl.
    destruct err as [e |]; simpl.
    + rewrite <- app_assoc. reflexivity.
    + reflexivity.
Qed.

Lemma interp_syncStorageClasses (shareTypes : list sharetypes.ShareType) (w : W) :
  interp h (syncAll shareTypes) w
  = let items := runItems h generate shareTypes w in
    (errors.NewAggregate (failures items.1.1), items.1.2, concat items.2).
Proof.
  subst syncAll. unfold syncStorageClasses. rewrite interp_bind.
  fold loop. rewrite interp_loop. simpl.
  destruct (runItems h generate shareTypes w) as [[rets w2] ts]. simpl.
  destruct (failures rets); simpl; rewrite ?app_nil_r; reflexivity.
Qed.

Lemma runItems_length (shareTypes : list sharetypes.ShareType) (w : W) :
  length (runItems h generate shareTypes w).1.1 = length shareTypes
  /\ length (runItems h generate shareTypes w).2 = length shareTypes.
Proof.
  revert w. induction shareTypes as [| shareType rest IH]; intros w.
  - split; reflexivity.
  - rewrite runItems_cons.
    destruct (interp h (applyStorageClass (generate shareType)) w)
      as [[err w1] t].
    specialize (IH w1).
    destruct (runItems h generate rest w1) as [[rets w2] ts]. simpl in *.
    destruct IH; split; congruence.
Qed.

Lemma interp_startControllers (ctrls : list Runnable) (w : W) :
  interp h (startControllers ctrls) w
  = (tt, spawned h ctrls w, map (fun ctrl => Ev (GoRun ctrl 1) tt) ctrls).
Proof.
  revert w. induction ctrls as [| ctrl rest IH]; intros w; simpl.
  - reflexivity.
  - destruct (h unit (GoRun ctrl 1) w) as [[] w1] eqn:E.
    rewrite IH. unfold spawned. simpl. reflexivity.
Qed.

End Reconcile.

(** ** The sync driver *)

Lemma interp_call {W R : Type} (h : Handler W) (c : Call R) (w : W) :
  interp h (call c) w = ((h _ c w).1, (h _ c w).2, [Ev c (h _ c w).1]).
Proof. unfold call. simpl. destruct (h R c w). reflexivity. Qed.

Section Sync.

Variables (StorageClassNamePrefix ManilaSecretName OperatorNamespace : string).

Let generate :=
  generateStorageClass StorageClassNamePrefix ManilaSecretName OperatorNamespace.
Let run := sync StorageClassNamePrefix ManilaSecretName OperatorNamespace.

Context {W : Type} (h : Handler W).

Variables (c : Controller) (w : W).

Lemma sync_state_error e w1 :
  h _ GetOperatorState w = (Err e, w1) ->
  interp h (run c) w = ((Some e, c), w1, [Ev GetOperatorState (Err e)]).
Proof.
  intros Hstate. subst run. unfold sync.
  rewrite interp_bind, interp_call, Hstate. reflexivity.
Qed.

Variables (opSpec : operatorv1.OperatorSpec) (st : operatorv1.OperatorStatus)
          (resourceVersion : string) (w1 : W).
Hypothesis Hstate :
  h _ GetOperatorState w = (Ok (opSpec, st, resourceVersion), w1).

Let read := Ev GetOperatorState (Ok (opSpec, st, resourceVersion)).

Lemma sync_not_managed :
  operatorv1.ManagementState_ opSpec <> operatorv1.Managed ->
  interp h (run c) w = ((None, c), w1, [read]).
Proof.
  intros Hne. subst run. unfold sync.
  rewrite interp_bind, interp_call, Hstate. cbn [fst snd].
  apply String.eqb_neq in Hne. rewrite Hne. reflexivity.
Qed.

Hypothesis Hmanaged : operatorv1.ManagementState_ opSpec = operatorv1.Managed.

Lemma sync_probe_error e w2 :
  h _ GetShareTypes w1 = (Err e, w2) ->
  isErrEndpointNotFound e = false ->
  interp h (run c) w
  = ((Some e, c), w2, [read; Ev GetShareTypes (Err e)]).
Proof.
  intros Hprobe Hother. subst run. unfold sync.
  rewrite interp_bind, interp_call, Hstate. cbn [fst snd].
  rewrite Hmanaged. cbn [negb String.eqb Ascii.eqb Bool.eqb operatorv1.Managed].
  rewrite interp_bind, interp_call, Hprobe. cbn [fst snd].
  destruct e; try discriminate; reflexivity.
Qed.

Lemma sync_not_supported m w2 :
  h _ GetShareTypes w1 = (Err (ErrEndpointNotFound m), w2) ->
  let msg := "This OpenStack does not provide Manila service" in
  let answer := h _ (UpdateStatus (disabledUpdate msg)) w2 in
  interp h (run c) w
  = ((answer.1.2, c), answer.2,
     [read; Ev GetShareTypes (Err (ErrEndpointNotFound m));
      Ev (UpdateStatus (disabledUpdate msg)) answer.1]).
Proof.
  intros Hprobe msg answer. subst run. unfold sync.
  rewrite interp_bind, interp_call, Hstate. cbn [fst snd].
  rewrite Hmanaged. cbn [negb String.eqb Ascii.eqb Bool.eqb operatorv1.Managed].
  rewrite interp_bind, interp_call, Hprobe. cbn [fst snd].
  rewrite interp_bind, interp_setDisabled. reflexivity.
Qed.

Lemma sync_no_share_types w2 :
  h _ GetShareTypes w1 = (Ok [], w2) ->
  let msg := "Manila does not provide any share types" in
  let answer := h _ (UpdateStatus (disabledUpdate msg)) w2 in
  interp h (run c) w
  = ((answer.1.2, c), answer.2,
     [read; Ev GetShareTypes (Ok []);
      Ev (UpdateStatus (disabledUpdate msg)) answer.1]).
Proof.
  intros Hprobe msg answer. subst run. unfold sync.
  rewrite interp_bind, interp_call, Hstate. cbn [fst snd].
  rewrite Hmanaged. cbn [negb String.eqb Ascii.eqb Bool.eqb operatorv1.Managed].
  rewrite interp_bind, interp_call, Hprobe. cbn [fst snd length Nat.eqb].
  rewrite interp_bind, interp_setDisabled. reflexivity.
Qed.

End Sync.

Section SyncReconcile.

Variables (StorageClassNamePrefix ManilaSecretName OperatorNamespace : string).

Let generate :=
  generateStorageClass StorageClassNamePrefix ManilaSecretName OperatorNamespace.
Let run := sync StorageClassNamePrefix ManilaSecretName OperatorNamespace.

Context {W : Type} (h : Handler W).

Variables (c : Controller) (w w1 w2 : W).
Variables (opSpec : operatorv1.OperatorSpec) (st : operatorv1.OperatorStatus)
          (resourceVersion : string).
Variables (shareType : sharetypes.ShareType) (rest : list sharetypes.ShareType).

Hypothesis Hstate :
  h _ GetOperatorState w = (Ok (opSpec, st, resourceVersion), w1).
Hypothesis Hmanaged : operatorv1.ManagementState_ opSpec = operatorv1.Managed.
Hypothesis Hprobe : h _ GetShareTypes w1 = (Ok (shareType :: rest), w2).

Let shareTypes := shareType :: rest.
Let w3 := if controllersRunning c then w2 else spawned h (csiControllers c) w2.
Let items := runItems h generate shareTypes w3.
Let answer := h _ (UpdateStatus enabledUpdate) items.1.2.
Let probe :=
  [Ev GetOperatorState (Ok (opSpec, st, resourceVersion));
   Ev GetShareTypes (Ok shareTypes)].

Lemma sync_reconcile :
  interp h (run c) w
  = match errors.NewAggregate (failures items.1.1) with
    | Some e =>
        ((Some e, launched c), items.1.2,
         probe ++ launchLog c ++ concat items.2)
    | None =>
        ((answer.1.2, launched c), answer.2,
         probe ++ launchLog c ++ concat items.2
           ++ [Ev (UpdateStatus enabledUpdate) answer.1])
    end.
Proof.
  subst run. unfold sync.
  rewrite interp_bind, interp_call, Hstate. cbn [fst snd].
  rewrite Hmanaged. cbn [negb String.eqb Ascii.eqb Bool.eqb operatorv1.Managed].
  rewrite interp_bind, interp_call, Hprobe. cbn [fst snd length Nat.eqb].
  rewrite interp_bind.
  assert (Hlaunch :
    interp h (if negb (controllersRunning c)
              then bind (startControllers (csiControllers c))
                     (fun _ => Ret {| csiControllers := csiControllers c;
                                      controllersRunning := true |})
              else Ret c) w2
    = (launched c, w3, launchLog c)).
  { subst w3. unfold launched, launchLog, started.
    destruct (controllersRunning c); cbn [negb]; [reflexivity |].
    rewrite interp_bind, interp_startControllers. simpl.
    rewrite app_nil_r. reflexivity. }
  rewrite Hlaunch. rewrite interp_bind.
  rewrite (interp_syncStorageClasses StorageClassNamePrefix ManilaSecretName
             OperatorNamespace h (shareType :: rest) w3).
  change (runItems h _ (shareType :: rest) w3) with items. cbn zeta.
  destruct (errors.NewAggregate (failures items.1.1)) as [e |].
  - simpl. rewrite ?app_nil_r. reflexivity.
  - rewrite interp_bind, interp_setEnabled. fold answer. simpl.
    rewrite ?app_nil_r. reflexivity.
Qed.

End SyncReconcile.

(** C8.  A sync that reads the operator state without error and finds a
    management state other than "Managed" returns nil after that one read:
    the log holds the read and nothing else (no probe, no spawn, no lookup,
    delete or apply, no status update), the controller is returned as it
    was, and the world is the one the read left. *)
Theorem unmanaged_sync_is_quiescent
    (StorageClassNamePrefix ManilaSecretName OperatorNamespace : string)
    {W : Type} (h : Handler W) (c : Controller) (w w1 : W)
    (opSpec : operatorv1.OperatorSpec) (st : operatorv1.OperatorStatus)
    (resourceVersion : string) :
  h _ GetOperatorState w = (Ok (opSpec, st, resourceVersion), w1) ->
  operatorv1.ManagementState_ opSpec <> operatorv1.Managed ->
  let run :=
    interp h (sync StorageClassNamePrefix ManilaSecretName OperatorNamespace c) w in
  run = ((None, c), w1,
         [Ev GetOperatorState (Ok (opSpec, st, resourceVersion))])
  /\ sawShareTypes run.2 = false
  /\ launches run.2 = []
  /\ lookups run.2 = [] /\ deletes run.2 = [] /\ applies run.2 = []
  /\ statusUpdates run.2 = [].
Proof.
  intros Hstate Hne run. subst run.
  rewrite (sync_not_managed StorageClassNamePrefix ManilaSecretName
             OperatorNamespace h c w opSpec st resourceVersion w1 Hstate Hne).
  repeat split.
Qed.

Lemma unmanaged_sync_is_quiescent_witness :
  let w := fake.withStatus examples.upgraded examples.noConditions in
  let paused :=
    {| fake.getStateErr := None; fake.spec := examples.unmanaged;
       fake.status := fake.status w; fake.updateErr := None;
       fake.shareTypes := fake.shareTypes w; fake.listErr := ∅;
       fake.cache := fake.cache w; fake.classes := fake.classes w;
       fake.deleteErr := ∅; fake.applyErr := ∅; fake.running := [] |} in
  let c := {| csiControllers := ["manila"; "nfs"]; controllersRunning := false |} in
  let run :=
    interp fake.handle
      (sync examples.prefix examples.secretName examples.namespace c) paused in
  fake.handle _ GetOperatorState paused
  = (Ok (examples.unmanaged, examples.noConditions, "1"), paused)
  /\ operatorv1.ManagementState_ examples.unmanaged <> operatorv1.Managed
  /\ run.1 = ((None, c), paused)
  /\ length run.2 = 1%nat.
Proof.
  intros w paused c run.
  assert (Hne : operatorv1.ManagementState_ examples.unmanaged
                <> operatorv1.Managed) by discriminate.
  pose proof (unmanaged_sync_is_quiescent examples.prefix examples.secretName
                examples.namespace fake.handle c paused paused
                examples.unmanaged examples.noConditions "1" eq_refl Hne)
    as [Hrun _].
  split; [reflexivity |].
  split; [exact Hne |].
  subst run. rewrite Hrun. split; reflexivity.
Defined.

(** C5.  In a managed sync whose probe fails: if the error is an
    [ErrEndpointNotFound], the sync makes one status update, [setDisabled]
    with the message "This OpenStack does not provide Manila service", and
    returns what that update returns, never the probe error; when the update
    commits the sync returns nil and the stored status has the Disabled
    condition true with reason "NoManila" and that message and no Available
    condition.  If the error is of any other kind, the sync returns that
    very error, makes no status update, and the stored status is as
    before. *)
Theorem probe_failure_disables_or_propagates
    (StorageClassNamePrefix ManilaSecretName OperatorNamespace : string)
    {W : Type} (h : Handler W) (status : W -> operatorv1.OperatorStatus)
    (c : Controller) (w w1 w2 : W)
    (opSpec : operatorv1.OperatorSpec) (st : operatorv1.OperatorStatus)
    (resourceVersion : string) (e : error) :
  StatusStore h status ->
  h _ GetOperatorState w = (Ok (opSpec, st, resourceVersion), w1) ->
  operatorv1.ManagementState_ opSpec = operatorv1.Managed ->
  h _ GetShareTypes w1 = (Err e, w2) ->
  let run :=
    interp h (sync StorageClassNamePrefix ManilaSecretName OperatorNamespace c) w in
  let msg := "This OpenStack does not provide Manila service" in
  let answer := h _ (UpdateStatus (disabledUpdate msg)) w2 in
  let find s := v1helpers.FindOperatorCondition (operatorv1.Conditions s) in
  (isErrEndpointNotFound e = true ->
     run = ((answer.1.2, c), answer.2,
            [Ev GetOperatorState (Ok (opSpec, st, resourceVersion));
             Ev GetShareTypes (Err e);
             Ev (UpdateStatus (disabledUpdate msg)) answer.1])
     /\ (answer.1.2 = None ->
           run.1.1.1 = None
           /\ find (status run.1.2) DisabledType
              = Some {| operatorv1.Type_ := "ManilaControllerDisabled";
                        operatorv1.Status := operatorv1.ConditionTrue;
                        operatorv1.Reason := "NoManila";
                        operatorv1.Message := msg |}
           /\ find (status run.1.2) AvailableType = None))
  /\ (isErrEndpointNotFound e = false ->
        run = ((Some e, c), w2,
               [Ev GetOperatorState (Ok (opSpec, st, resourceVersion));
                Ev GetShareTypes (Err e)])
        /\ statusUpdates run.2 = []
        /\ status run.1.2 = status w).
Proof.
  intros store Hstate Hmanaged Hprobe run msg answer find.
  subst run find. split.
  - intros Hnf. destruct e as [m | | |]; try discriminate.
    rewrite (sync_not_supported StorageClassNamePrefix ManilaSecretName
               OperatorNamespace h c w opSpec st resourceVersion w1 Hstate
               Hmanaged m w2 Hprobe).
    fold msg. fold answer. split; [reflexivity |].
    intros Hok. cbn [fst snd]. split; [exact Hok |].
    pose proof (transition_outcome h status store (disabledCnd msg)
                  AvailableType w2 Available_not_Disabled) as [Hcommit _].
    fold (disabledUpdate msg) in Hcommit. fold answer in Hcommit.
    exact (Hcommit Hok).
  - intros Hother.
    rewrite (sync_probe_error StorageClassNamePrefix ManilaSecretName
               OperatorNamespace h c w opSpec st resourceVersion w1 Hstate
               Hmanaged e w2 Hprobe Hother).
    split; [reflexivity |]. split; [reflexivity |].
    cbn [fst snd]. destruct store as [_ Hframe].
    pose proof (Hframe _ GetOperatorState w eq_refl) as H1.
    pose proof (Hframe _ GetShareTypes w1 eq_refl) as H2.
    rewrite Hstate in H1. rewrite Hprobe in H2. simpl in H1, H2. congruence.
Qed.

Lemma probe_failure_disables_or_propagates_witness :
  let msg := "This OpenStack does not provide Manila service" in
  let noManila :=
    examples.probing (Err (ErrEndpointNotFound "no endpoint")) examples.available in
  let timeout :=
    examples.probing (Err (ErrOther "i/o timeout")) examples.available in
  let run w :=
    interp fake.handle
      (sync examples.prefix examples.secretName examples.namespace
         examples.controller) w in
  StatusStore fake.handle fake.status
  /\ fake.handle _ GetShareTypes noManila
     = (Err (ErrEndpointNotFound "no endpoint"), noManila)
  /\ (run noManila).1.1.1 = None
  /\ operatorv1.Conditions (fake.status (run noManila).1.2) = [disabledCnd msg]
  /\ (run timeout).1.1.1 = Some (ErrOther "i/o timeout")
  /\ fake.status (run timeout).1.2 = examples.available.
Proof.
  intros msg noManila timeout run.
  pose proof (probe_failure_disables_or_propagates examples.prefix
                examples.secretName examples.namespace fake.handle fake.status
                examples.controller noManila noManila noManila
                examples.managed examples.available "1"
                (ErrEndpointNotFound "no endpoint")
                fake_StatusStore eq_refl eq_refl eq_refl) as [Hdisable _].
  pose proof (probe_failure_disables_or_propagates examples.prefix
                examples.secretName examples.namespace fake.handle fake.status
                examples.controller timeout timeout timeout
                examples.managed examples.available "1"
                (ErrOther "i/o timeout")
                fake_StatusStore eq_refl eq_refl eq_refl) as [_ Hother].
  destruct (Hdisable eq_refl) as [Hrun Hcommit].
  destruct (Hcommit eq_refl) as (Hnil & _ & _).
  destruct (Hother eq_refl) as (Hrun' & _ & Hstatus).
  split; [exact fake_StatusStore |].
  split; [reflexivity |].
  split; [exact Hnil |].
  split; [reflexivity |].
  split; [| exact Hstatus].
  subst run. cbv beta. rewrite Hrun'. reflexivity.
Defined.

(** C6.  In a managed sync whose probe succeeds with an empty list, the
    sync makes one status update, [setDisabled] with the message "Manila
    does not provide any share types", and returns what that update returns;
    it spawns no controller, looks up, deletes and applies no storage class,
    and returns the controller as it was.  When the update commits the sync
    returns nil and the stored status has the Disabled condition true with
    reason "NoManila" and that message and no Available condition: the
    condition of the "not supported" case but for its message. *)
Theorem empty_share_types_disable
    (StorageClassNamePrefix ManilaSecretName OperatorNamespace : string)
    {W : Type} (h : Handler W) (status : W -> operatorv1.OperatorStatus)
    (c : Controller) (w w1 w2 : W)
    (opSpec : operatorv1.OperatorSpec) (st : operatorv1.OperatorStatus)
    (resourceVersion : string) :
  StatusStore h status ->
  h _ GetOperatorState w = (Ok (opSpec, st, resourceVersion), w1) ->
  operatorv1.ManagementState_ opSpec = operatorv1.Managed ->
  h _ GetShareTypes w1 = (Ok [], w2) ->
  let run :=
    interp h (sync StorageClassNamePrefix ManilaSecretName OperatorNamespace c) w in
  let msg := "Manila does not provide any share types" in
  let unsupported := disabledCnd "This OpenStack does not provide Manila service" in
  let answer := h _ (UpdateStatus (disabledUpdate msg)) w2 in
  let find s := v1helpers.FindOperatorCondition (operatorv1.Conditions s) in
  run = ((answer.1.2, c), answer.2,
         [Ev GetOperatorState (Ok (opSpec, st, resourceVersion));
          Ev GetShareTypes (Ok []);
          Ev (UpdateStatus (disabledUpdate msg)) answer.1])
  /\ launches run.2 = []
  /\ lookups run.2 = [] /\ deletes run.2 = [] /\ applies run.2 = []
  /\ statusUpdates run.2 = [disabledUpdate msg]
  /\ disabledCnd msg
     = {| operatorv1.Type_ := operatorv1.Type_ unsupported;
          operatorv1.Status := operatorv1.Status unsupported;
          operatorv1.Reason := operatorv1.Reason unsupported;
          operatorv1.Message := msg |}
  /\ (answer.1.2 = None ->
        run.1.1.1 = None
        /\ find (status run.1.2) DisabledType
           = Some {| operatorv1.Type_ := "ManilaControllerDisabled";
                     operatorv1.Status := operatorv1.ConditionTrue;
                     operatorv1.Reason := "NoManila";
                     operatorv1.Message := msg |}
        /\ find (status run.1.2) AvailableType = None).
Proof.
  intros store Hstate Hmanaged Hprobe run msg unsupported answer find.
  subst run find.
  rewrite (sync_no_share_types StorageClassNamePrefix ManilaSecretName
             OperatorNamespace h c w opSpec st resourceVersion w1 Hstate
             Hmanaged w2 Hprobe).
  fold msg. fold answer.
  split; [reflexivity |]. split; [reflexivity |]. split; [reflexivity |].
  split; [reflexivity |]. split; [reflexivity |]. split; [reflexivity |].
  split; [reflexivity |].
  intros Hok. cbn [fst snd]. split; [exact Hok |].
  pose proof (transition_outcome h status store (disabledCnd msg)
                AvailableType w2 Available_not_Disabled) as [Hcommit _].
  fold (disabledUpdate msg) in Hcommit. fold answer in Hcommit.
  exact (Hcommit Hok).
Qed.

Lemma empty_share_types_disable_witness :
  let msg := "Manila does not provide any share types" in
  let noTypes := examples.probing (Ok []) examples.available in
  let run :=
    interp fake.handle
      (sync examples.prefix examples.secretName examples.namespace
         examples.controller) noTypes in
  StatusStore fake.handle fake.status
  /\ fake.handle _ GetShareTypes noTypes = (Ok [], noTypes)
  /\ run.1.1 = (None, examples.controller)
  /\ operatorv1.Conditions (fake.status run.1.2) = [disabledCnd msg]
  /\ fake.running run.1.2 = []
  /\ fake.classes run.1.2 = ∅.
Proof.
  intros msg noTypes run.
  pose proof (empty_share_types_disable examples.prefix
                examples.secretName examples.namespace fake.handle fake.status
                examples.controller noTypes noTypes noTypes
                examples.managed examples.available "1"
                fake_StatusStore eq_refl eq_refl eq_refl)
    as (Hrun & _).
  split; [exact fake_StatusStore |].
  split; [reflexivity |].
  subst run. rewrite Hrun. repeat split.
Defined.

(** ** What a reconcile logs *)

Lemma launchLog_reads (c : Controller) :
  launches (launchLog c)
  = (if controllersRunning c then [] else oneWorker (csiControllers c))
  /\ lookups (launchLog c) = []
  /\ statusUpdates (launchLog c) = []
  /\ sawShareTypes (launchLog c) = false.
Proof.
  unfold launchLog. destruct (controllersRunning c); [repeat split |].
  induction (csiControllers c) as [| ctrl ctrls IH]; [repeat split |].
  destruct IH as (H1 & H2 & H3 & H4). simpl.
  unfold launches, lookups, statusUpdates, oneWorker in *.
  rewrite H1, H2, H3. repeat split. exact H4.
Qed.

Lemma applyStorageClass_log {W : Type} (h : Handler W)
    (expected : storagev1.StorageClass) (w : W) :
  let t := (interp h (applyStorageClass expected) w).2 in
  lookups t = [metav1.Name (storagev1.ObjectMeta expected)]
  /\ statusUpdates t = []
  /\ launches t = []
  /\ sawShareTypes t = false.
Proof.
  set (name := metav1.Name (storagev1.ObjectMeta expected)).
  destruct (h _ (ListerGet name) w) as [[current | e] w1] eqn:Hget.
  - destruct (decide (storagev1.Parameters expected
                      = storagev1.Parameters current)) as [Heq | Hne].
    + rewrite (applyStorageClass_same h expected w current w1 Hget Heq).
      repeat split.
    + destruct (h _ (DeleteStorageClass name) w1) as [[err |] w2] eqn:Hdel.
      * rewrite (applyStorageClass_delete_error h expected w current w1 err w2
                   Hget Hne Hdel).
        repeat split.
      * rewrite (applyStorageClass_replace h expected w current w1 w2
                   Hget Hne Hdel).
        repeat split.
  - rewrite (applyStorageClass_absent h expected w e w1 Hget). repeat split.
Qed.

Lemma sawShareTypes_app (t1 t2 : list Event) :
  sawShareTypes (t1 ++ t2) = sawShareTypes t1 || sawShareTypes t2.
Proof. apply existsb_app. Qed.

Lemma runItems_log {W : Type} (h : Handler W)
    (generate : sharetypes.ShareType -> storagev1.StorageClass)
    (shareTypes : list sharetypes.ShareType) (w : W) :
  let t := concat (runItems h generate shareTypes w).2 in
  lookups t
  = map (fun shareType => metav1.Name (storagev1.ObjectMeta (generate shareType)))
      shareTypes
  /\ statusUpdates t = []
  /\ launches t = []
  /\ sawShareTypes t = false.
Proof.
  revert w. induction shareTypes as [| shareType rest IH]; intros w.
  - repeat split.
  - cbn [runItems].
    pose proof (applyStorageClass_log h (generate shareType) w) as Hitem.
    destruct (interp h (applyStorageClass (generate shareType)) w)
      as [[err w1] t1].
    specialize (IH w1).
    destruct (runItems h generate rest w1) as [[rets w2] ts].
    cbn [fst snd concat map] in *.
    destruct Hitem as (H1 & H2 & H3 & H4). destruct IH as (I1 & I2 & I3 & I4).
    unfold lookups, statusUpdates, launches in *.
    rewrite !omap_app, sawShareTypes_app.
    rewrite H1, H2, H3, H4, I1, I2, I3, I4. repeat split.
Qed.

(** C3.  [syncStorageClasses] runs [applyStorageClass] on the class
    generated for every share type of the list, in order, whatever the
    earlier items returned: there are as many item runs as share types, and
    the lister is asked once for each generated name.  It returns nil when
    no item failed and otherwise the aggregate of the item errors, in order.
    In [sync], when some item failed, that aggregate is what the sync
    returns, and the sync makes no status update: the Available condition
    is not set. *)
Theorem reconcile_attempts_all_and_aggregates
    (StorageClassNamePrefix ManilaSecretName OperatorNamespace : string)
    {W : Type} (h : Handler W) (shareTypes : list sharetypes.ShareType) :
  let generate :=
    generateStorageClass StorageClassNamePrefix ManilaSecretName OperatorNamespace in
  let names :=
    map (fun shareType => StorageClassNamePrefix +:+ sharetypes.Name shareType)
      shareTypes in
  (forall w : W,
      let items := runItems h generate shareTypes w in
      let run :=
        interp h (syncStorageClasses StorageClassNamePrefix ManilaSecretName
                    OperatorNamespace shareTypes) w in
      length items.1.1 = length shareTypes
      /\ run.2 = concat items.2
      /\ lookups run.2 = names
      /\ run.1.2 = items.1.2
      /\ run.1.1 = match failures items.1.1 with
                   | [] => None
                   | e :: errs => Some (Aggregate (e :: errs))
                   end)
  /\ (forall (c : Controller) (w w1 w2 : W) (opSpec : operatorv1.OperatorSpec)
        (st : operatorv1.OperatorStatus) (resourceVersion : string),
        h _ GetOperatorState w = (Ok (opSpec, st, resourceVersion), w1) ->
        operatorv1.ManagementState_ opSpec = operatorv1.Managed ->
        h _ GetShareTypes w1 = (Ok shareTypes, w2) ->
        let w3 :=
          if controllersRunning c then w2
          else spawned h (csiControllers c) w2 in
        let items := runItems h generate shareTypes w3 in
        let run :=
          interp h (sync StorageClassNamePrefix ManilaSecretName
                      OperatorNamespace c) w in
        failures items.1.1 <> [] ->
        run.1.1.1 = Some (Aggregate (failures items.1.1))
        /\ run.1.2 = items.1.2
        /\ lookups run.2 = names
        /\ statusUpdates run.2 = []).
Proof.
  intros generate names. split.
  - intros w items run. subst run.
    rewrite interp_syncStorageClasses. fold generate. fold items. cbn [fst snd].
    split; [apply runItems_length |].
    split; [reflexivity |].
    split; [apply (runItems_log h generate shareTypes w) |].
    split; [reflexivity |].
    unfold errors.NewAggregate. destruct (failures items.1.1); reflexivity.
  - intros c w w1 w2 opSpec st resourceVersion Hstate Hmanaged Hprobe
      w3 items run Hfailed.
    destruct shareTypes as [| shareType rest].
    { exfalso. apply Hfailed. reflexivity. }
    subst run.
    rewrite (sync_reconcile StorageClassNamePrefix ManilaSecretName
               OperatorNamespace h c w w1 w2 opSpec st resourceVersion
               shareType rest Hstate Hmanaged Hprobe).
    fold generate. fold w3. fold items.
    unfold errors.NewAggregate.
    destruct (failures items.1.1) as [| e errs] eqn:Hfail; [congruence |].
    cbn [fst snd].
    pose proof (runItems_log h generate (shareType :: rest) w3)
      as (Hlook & Hupd & _).
    fold items in Hlook, Hupd.
    split; [reflexivity |]. split; [reflexivity |].
    pose proof (launchLog_reads c) as (_ & Hl1 & Hl2 & _).
    unfold lookups, statusUpdates in *.
    rewrite !omap_app, Hlook, Hupd, Hl1, Hl2. split; reflexivity.
Qed.

(** ** The launch latch *)

Section Latch.

Variables (StorageClassNamePrefix ManilaSecretName OperatorNamespace : string).

Let run := sync StorageClassNamePrefix ManilaSecretName OperatorNamespace.

Context {W : Type} (h : Handler W).

(** One sync: it spawns only if it saw share types with the flag down, and
    then every controller with one worker; the flag only goes up. *)
Lemma sync_launch (c : Controller) (w : W) :
  let r := interp h (run c) w in
  csiControllers r.1.1.2 = csiControllers c
  /\ (sawShareTypes r.2 = true ->
        launches r.2
        = (if controllersRunning c then [] else oneWorker (csiControllers c))
        /\ controllersRunning r.1.1.2 = true)
  /\ (sawShareTypes r.2 = false -> launches r.2 = [] /\ r.1.1.2 = c).
Proof.
  destruct (h _ GetOperatorState w) as [[[[opSpec st] rv] | e] w1] eqn:Hstate.
  - destruct (decide (operatorv1.ManagementState_ opSpec = operatorv1.Managed))
      as [Hm | Hm].
    + destruct (h _ GetShareTypes w1) as [[[| shareType rest] | e] w2] eqn:Hprobe.
      * subst run.
        rewrite (sync_no_share_types _ _ _ h c w opSpec st rv w1 Hstate Hm w2 Hprobe).
        cbn. repeat split; discriminate.
      * subst run.
        rewrite (sync_reconcile _ _ _ h c w w1 w2 opSpec st rv shareType rest
                   Hstate Hm Hprobe).
        pose proof (launchLog_reads c) as (Hl & _).
        pose proof (runItems_log h
                      (generateStorageClass StorageClassNamePrefix
                         ManilaSecretName OperatorNamespace)
                      (shareType :: rest)
                      (if controllersRunning c then w2
                       else spawned h (csiControllers c) w2))
          as (_ & _ & Hi & _).
        assert (Hc : csiControllers (launched c) = csiControllers c
                     /\ controllersRunning (launched c) = true).
        { unfold launched, started.
          destruct (controllersRunning c) eqn:E; split; auto. }
        destruct (errors.NewAggregate _) as [err |]; cbn [fst snd];
          (split; [apply Hc |]); (split; [intros _ | discriminate]);
          (split; [| apply Hc]);
          unfold launches in *; rewrite !omap_app, Hl, Hi;
          simpl; rewrite ?app_nil_r; reflexivity.
      * subst run. destruct (isErrEndpointNotFound e) eqn:He.
        -- destruct e as [m | | |]; try discriminate.
           rewrite (sync_not_supported _ _ _ h c w opSpec st rv w1 Hstate Hm
                      m w2 Hprobe).
           cbn. repeat split; discriminate.
        -- rewrite (sync_probe_error _ _ _ h c w opSpec st rv w1 Hstate Hm
                      e w2 Hprobe He).
           cbn. repeat split; discriminate.
    + subst run.
      rewrite (sync_not_managed _ _ _ h c w opSpec st rv w1 Hstate Hm).
      cbn. repeat split; discriminate.
  - subst run. rewrite (sync_state_error _ _ _ h c w e w1 Hstate).
    cbn. repeat split; discriminate.
Qed.

Lemma runSyncs_succ (n : nat) (c : Controller) (w : W) :
  runSyncs h run (S n) c w
  = let '(ret, w1, t) := interp h (run c) w in
    let '(c2, w2, ts) := runSyncs h run n ret.2 w1 in
    (c2, w2, t :: ts).
Proof. reflexivity. Qed.

(** Once the flag is up it stays up and nothing more is spawned. *)
Lemma runSyncs_latched (n : nat) (c : Controller) (w : W) :
  controllersRunning c = true ->
  controllersRunning (runSyncs h run n c w).1.1 = true
  /\ Forall (fun t => launches t = []) (runSyncs h run n c w).2
  /\ launches (concat (runSyncs h run n c w).2) = [].
Proof.
  revert c w. induction n as [| n IH]; intros c w Hup.
  - repeat split; [exact Hup | constructor].
  - rewrite runSyncs_succ.
    pose proof (sync_launch c w) as (_ & Hsaw & Hnot). cbn zeta in Hsaw, Hnot.
    destruct (interp h (run c) w) as [[[err c1] w1] t]. cbn [fst snd] in *.
    assert (Hc1 : launches t = [] /\ controllersRunning c1 = true).
    { rewrite Hup in Hsaw. destruct (sawShareTypes t).
      - apply Hsaw. reflexivity.
      - destruct (Hnot eq_refl) as [Hl Hc]. subst c1. split; assumption. }
    destruct Hc1 as [Hl Hc1].
    specialize (IH c1 w1 Hc1).
    destruct (runSyncs h run n c1 w1) as [[c2 w2] ts]. cbn [fst snd] in *.
    destruct IH as (I1 & I2 & I3).
    split; [exact I1 |]. split; [constructor; assumption |].
    cbn [concat]. unfold launches in *. rewrite omap_app, Hl, I3. reflexivity.
Qed.

End Latch.

(** C7.  Over any number of syncs run one after the other: once
    [controllersRunning] is set it stays set and no later sync spawns
    anything; and when the flag starts unset and every one of the syncs
    (there is at least one) gets a non-empty share-type list, the spawns of
    the whole run are those of the first sync, one [Run] per controller of
    [csiControllers], each with one worker, no later sync spawns anything,
    and the flag ends set. *)
Theorem controllers_start_once
    (StorageClassNamePrefix ManilaSecretName OperatorNamespace : string)
    {W : Type} (h : Handler W) (n : nat) (c : Controller) (w : W) :
  let runs :=
    runSyncs h (sync StorageClassNamePrefix ManilaSecretName OperatorNamespace)
      n c w in
  (controllersRunning c = true ->
     controllersRunning runs.1.1 = true
     /\ Forall (fun t => launches t = []) runs.2)
  /\ (controllersRunning c = false ->
      n <> O ->
      Forall (fun t => sawShareTypes t = true) runs.2 ->
      launches (concat runs.2) = oneWorker (csiControllers c)
      /\ launches (hd [] runs.2) = oneWorker (csiControllers c)
      /\ Forall (fun t => launches t = []) (tl runs.2)
      /\ controllersRunning runs.1.1 = true).
Proof.
  intros runs. subst runs. split.
  - intros Hup.
    destruct (runSyncs_latched StorageClassNamePrefix ManilaSecretName
                OperatorNamespace h n c w Hup) as (H1 & H2 & _).
    split; assumption.
  - intros Hdown Hn Hall. destruct n as [| n]; [congruence |].
    rewrite runSyncs_succ in *.
    pose proof (sync_launch StorageClassNamePrefix ManilaSecretName
                  OperatorNamespace h c w) as (_ & Hsaw & _).
    cbn zeta in Hsaw.
    destruct (interp h (sync _ _ _ c) w) as [[[err c1] w1] t].
    cbn [fst snd] in *.
    pose proof (runSyncs_latched StorageClassNamePrefix ManilaSecretName
                  OperatorNamespace h n c1 w1) as Hrest.
    destruct (runSyncs h _ n c1 w1) as [[c2 w2] ts]. cbn [fst snd hd tl] in *.
    inversion Hall as [| ? ? Hfirst _]; subst.
    destruct (Hsaw Hfirst) as [Hl Hc1]. rewrite Hdown in Hl.
    destruct (Hrest Hc1) as (I1 & I2 & I3).
    split; [| split; [exact Hl | split; [exact I2 | exact I1]]].
    cbn [concat]. unfold launches in *. rewrite omap_app, Hl, I3.
    apply app_nil_r.
Qed.

Lemma controllers_start_once_witness :
  let runs :=
    runSyncs fake.handle
      (sync examples.prefix examples.secretName examples.namespace)
      100 examples.controller examples.cluster in
  controllersRunning examples.controller = false
  /\ Forall (fun t => sawShareTypes t = true) runs.2
  /\ length runs.2 = 100%nat
  /\ launches (concat runs.2) = [("manila", 1%Z); ("nfs", 1%Z)]
  /\ fake.running runs.1.2 = [("manila", 1%Z); ("nfs", 1%Z)]
  /\ controllersRunning runs.1.1 = true.
Proof.
  intros runs.
  assert (Hall : Forall (fun t => sawShareTypes t = true) runs.2).
  { apply (bool_decide_unpack _). vm_compute. exact I. }
  pose proof (controllers_start_once examples.prefix examples.secretName
                examples.namespace fake.handle 100 examples.controller
                examples.cluster) as [_ Honce].
  destruct (Honce eq_refl ltac:(discriminate) Hall) as (Htotal & _ & _ & Hup).
  split; [reflexivity |].
  split; [exact Hall |].
  split; [vm_compute; reflexivity |].
  split; [exact Htotal |].
  split; [vm_compute; reflexivity | exact Hup].
Defined.

Lemma reconcile_attempts_all_and_aggregates_witness :
  let shareTypes :=
    [examples.shareType "a"; examples.shareType "b"; examples.shareType "c"] in
  let broken :=
    {| fake.getStateErr := None; fake.spec := examples.managed;
       fake.status := examples.noConditions; fake.updateErr := None;
       fake.shareTypes := Ok shareTypes; fake.listErr := ∅;
       fake.cache := ∅; fake.classes := ∅; fake.deleteErr := ∅;
       fake.applyErr := {[ "manila-b" := ErrOther "quota exceeded" ]};
       fake.running := [] |} in
  let run :=
    interp fake.handle
      (sync examples.prefix examples.secretName examples.namespace
         examples.controller) broken in
  fake.handle _ GetShareTypes broken = (Ok shareTypes, broken)
  /\ run.1.1.1 = Some (Aggregate [ErrOther "quota exceeded"])
  /\ lookups run.2 = ["manila-a"; "manila-b"; "manila-c"]
  /\ dom (fake.classes run.1.2) = {[ "manila-a"; "manila-c" ]}
  /\ statusUpdates run.2 = []
  /\ fake.status run.1.2 = examples.noConditions.
Proof.
  intros shareTypes broken run.
  pose proof (reconcile_attempts_all_and_aggregates examples.prefix
                examples.secretName examples.namespace fake.handle shareTypes)
    as [_ Hsync].
  specialize (Hsync examples.controller broken broken broken examples.managed
                examples.noConditions "1" eq_refl eq_refl eq_refl).
  cbn zeta in Hsync.
  assert (Hfailed :
    failures
      (runItems fake.handle
         (generateStorageClass examples.prefix examples.secretName
            examples.namespace) shareTypes
         (if controllersRunning examples.controller then broken
          else spawned fake.handle (csiControllers examples.controller) broken)).1.1
    <> []).
  { vm_compute. discriminate. }
  destruct (Hsync Hfailed) as (Herr & _ & Hlook & Hupd).
  split; [reflexivity |].
  split; [exact Herr |].
  split; [exact Hlook |].
  split; [vm_compute; reflexivity |].
  split; [exact Hupd |].
  reflexivity.
Defined.

(** ** The generated storage class *)

(** C9.  [generateStorageClass] is a function of the share type, and of
    its name alone: the class is named by the prefix followed by the
    share-type name, its provisioner is "manila.csi.openstack.org", and its
    parameters are "type", bound to the share-type name, together with the
    six secret-reference keys, which do not depend on the share type, seven
    entries in all; two share types of the same name yield the same class. *)
Theorem generateStorageClass_is_determined
    (StorageClassNamePrefix ManilaSecretName OperatorNamespace : string)
    (shareType : sharetypes.ShareType) :
  let sc :=
    generateStorageClass StorageClassNamePrefix ManilaSecretName
      OperatorNamespace shareType in
  metav1.Name (storagev1.ObjectMeta sc)
  = StorageClassNamePrefix +:+ sharetypes.Name shareType
  /\ storagev1.Provisioner sc = "manila.csi.openstack.org"
  /\ (exists parameters : gmap string string,
        storagev1.Parameters sc = Some parameters
        /\ parameters !! "type" = Some (sharetypes.Name shareType)
        /\ delete "type" parameters
           = secretParameters ManilaSecretName OperatorNamespace
        /\ size (secretParameters ManilaSecretName OperatorNamespace) = 6%nat
        /\ size parameters = 7%nat)
  /\ (forall other : sharetypes.ShareType,
        sharetypes.Name other = sharetypes.Name shareType ->
        generateStorageClass StorageClassNamePrefix ManilaSecretName
          OperatorNamespace other = sc).
Proof.
  intros sc. split; [reflexivity |]. split; [reflexivity |]. split.
  - eexists. split; [reflexivity |].
    split; [reflexivity |]. split; [reflexivity |]. split; reflexivity.
  - intros other Hname. subst sc. unfold generateStorageClass.
    rewrite Hname. reflexivity.
Qed.

Lemma generateStorageClass_is_determined_witness :
  let default := examples.shareType "default" in
  let other :=
    {| sharetypes.ID := "7d1f"; sharetypes.Name := "default";
       sharetypes.IsPublic := false;
       sharetypes.RequiredExtraSpecs :=
         {[ "driver_handles_share_servers" := "true" ]};
       sharetypes.ExtraSpecs := {[ "snapshot_support" := "true" ]} |} in
  sharetypes.Name other = sharetypes.Name default
  /\ examples.generate other = examples.generate default
  /\ metav1.Name (storagev1.ObjectMeta (examples.generate default))
     = "manila-default"
  /\ metav1.Name (storagev1.ObjectMeta
                    (examples.generate (examples.shareType "fast")))
     = "manila-fast".
Proof.
  intros default other.
  pose proof (generateStorageClass_is_determined examples.prefix
                examples.secretName examples.namespace default)
    as (Hname & _ & _ & Hsame).
  split; [reflexivity |].
  split; [exact (Hsame other eq_refl) |].
  split; [exact Hname |].
  reflexivity.
Defined.

(** ** Whole syncs on the cluster in memory *)

(** Two share types, no class yet: both classes are created, both
    controllers are spawned, and the operator becomes Available. *)
Example sync_creates_a_class_per_share_type :
  let run :=
    interp fake.handle
      (sync examples.prefix examples.secretName examples.namespace
         examples.controller) examples.cluster in
  run.1.1 = (None, started examples.controller)
  /\ fake.classes run.1.2
     = {[ "manila-default" := examples.generate (examples.shareType "default");
          "manila-fast" := examples.generate (examples.shareType "fast") ]}
  /\ fake.running run.1.2 = [("manila", 1%Z); ("nfs", 1%Z)]
  /\ operatorv1.Conditions (fake.status run.1.2) = [availableCnd].
Proof.
  intros run.
  split; [vm_compute; reflexivity |].
  split; [vm_compute; reflexivity |].
  split; vm_compute; reflexivity.
Qed.

(** The lister still shows the old "manila-default" that is gone from the
    cluster: the sync reports success and sets Available although no class
    "manila-default" exists afterwards. *)
Example sync_with_stale_cache_leaves_class_missing :
  let run :=
    interp fake.handle
      (sync examples.prefix examples.secretName examples.namespace
         examples.controller) examples.staleCache in
  run.1.1.1 = None
  /\ fake.classes run.1.2 !! "manila-default" = None
  /\ applies run.2 = [examples.generate (examples.shareType "fast")]
  /\ operatorv1.Conditions (fake.status run.1.2) = [availableCnd].
Proof.
  intros run.
  split; [vm_compute; reflexivity |].
  split; [vm_compute; reflexivity |].
  split; vm_compute; reflexivity.
Qed.

(** * Further properties of the controller *)

(** ** Error paths of one sync and of one item *)

(** X1.  When [GetOperatorState] fails, [sync] returns that very error
    after this one call: it does not probe, spawn, touch a storage class or
    update the status, and the controller is as it was. *)
Theorem state_read_error_is_returned
    (StorageClassNamePrefix ManilaSecretName OperatorNamespace : string)
    {W : Type} (h : Handler W) (c : Controller) (w w1 : W) (e : error) :
  h _ GetOperatorState w = (Err e, w1) ->
  let run :=
    interp h (sync StorageClassNamePrefix ManilaSecretName OperatorNamespace c) w in
  run = ((Some e, c), w1, [Ev GetOperatorState (Err e)])
  /\ sawShareTypes run.2 = false
  /\ launches run.2 = []
  /\ lookups run.2 = [] /\ deletes run.2 = [] /\ applies run.2 = []
  /\ statusUpdates run.2 = [].
Proof.
  intros Hstate run. subst run.
  rewrite (sync_state_error StorageClassNamePrefix ManilaSecretName
             OperatorNamespace h c w e w1 Hstate).
  repeat split.
Qed.

Lemma state_read_error_is_returned_witness :
  let down :=
    {| fake.getStateErr := Some (ErrOther "connection refused");
       fake.spec := examples.managed; fake.status := examples.available;
       fake.updateErr := None;
       fake.shareTypes := Ok [examples.shareType "default"];
       fake.listErr := ∅; fake.cache := ∅; fake.classes := ∅;
       fake.deleteErr := ∅; fake.applyErr := ∅; fake.running := [] |} in
  let run :=
    interp fake.handle
      (sync examples.prefix examples.secretName examples.namespace
         examples.controller) down in
  fake.handle _ GetOperatorState down = (Err (ErrOther "connection refused"), down)
  /\ run.1 = ((Some (ErrOther "connection refused"), examples.controller), down)
  /\ length run.2 = 1%nat.
Proof.
  intros down run.
  pose proof (state_read_error_is_returned examples.prefix examples.secretName
                examples.namespace fake.handle examples.controller down down
                (ErrOther "connection refused") eq_refl) as [Hrun _].
  split; [reflexivity |].
  subst run. rewrite Hrun. split; reflexivity.
Defined.

(** X2.  When the observed class has other parameters and the delete fails
    with an error that is not a "not found", [applyStorageClass] returns
    that very error and stops: no apply call is made for the item. *)
Theorem delete_failure_aborts_item {W : Type} (h : Handler W)
    (expected current : storagev1.StorageClass) (w w1 w2 : W) (err : error) :
  let name := metav1.Name (storagev1.ObjectMeta expected) in
  h _ (ListerGet name) w = (Ok current, w1) ->
  storagev1.Parameters expected <> storagev1.Parameters current ->
  h _ (DeleteStorageClass name) w1 = (Some err, w2) ->
  apierrors.IsNotFound err = false ->
  let run := interp h (applyStorageClass expected) w in
  run = (Some err, w2,
         [Ev (ListerGet name) (Ok current);
          Ev (DeleteStorageClass name) (Some err)])
  /\ applies run.2 = [].
Proof.
  intros name Hget Hne Hdel Hother run. subst run.
  rewrite (applyStorageClass_delete_error h expected w current w1 err w2
             Hget Hne Hdel).
  rewrite Hother. split; reflexivity.
Qed.

Lemma delete_failure_aborts_item_witness :
  let expected := examples.generate (examples.shareType "default") in
  let forbidden := StatusError "Forbidden" "storageclasses is forbidden" in
  let locked :=
    {| fake.getStateErr := None; fake.spec := examples.managed;
       fake.status := examples.noConditions; fake.updateErr := None;
       fake.shareTypes := Ok [examples.shareType "default"];
       fake.listErr := ∅;
       fake.cache := {[ "manila-default" := examples.oldDefault ]};
       fake.classes := {[ "manila-default" := examples.oldDefault ]};
       fake.deleteErr := {[ "manila-default" := forbidden ]};
       fake.applyErr := ∅; fake.running := [] |} in
  let run := interp fake.handle (applyStorageClass expected) locked in
  fake.handle _ (ListerGet "manila-default") locked
  = (Ok examples.oldDefault, locked)
  /\ storagev1.Parameters expected <> storagev1.Parameters examples.oldDefault
  /\ fake.handle _ (DeleteStorageClass "manila-default") locked
     = (Some forbidden, locked)
  /\ apierrors.IsNotFound forbidden = false
  /\ run.1.1 = Some forbidden
  /\ applies run.2 = []
  /\ fake.classes run.1.2 !! "manila-default" = Some examples.oldDefault.
Proof.
  intros expected forbidden locked run.
  assert (Hne : storagev1.Parameters expected
                <> storagev1.Parameters examples.oldDefault).
  { intros Heq. apply DeepEqual_eq in Heq. vm_compute in Heq. discriminate. }
  pose proof (delete_failure_aborts_item fake.handle expected
                examples.oldDefault locked locked locked forbidden
                eq_refl Hne eq_refl eq_refl) as [Hrun Happ].
  split; [reflexivity |].
  split; [exact Hne |].
  split; [reflexivity |].
  split; [reflexivity |].
  subst run. rewrite Hrun. repeat split.
Defined.

(** X3.  When the observed class has the expected parameters,
    [applyStorageClass] deletes nothing and applies the expected class as it
    was handed in: the observed metadata is not merged into it on this
    path. *)
Theorem matching_parameters_apply_without_delete {W : Type} (h : Handler W)
    (expected current : storagev1.StorageClass) (w w1 : W) :
  let name := metav1.Name (storagev1.ObjectMeta expected) in
  h _ (ListerGet name) w = (Ok current, w1) ->
  storagev1.Parameters expected = storagev1.Parameters current ->
  let answer := h _ (ApplyStorageClass expected) w1 in
  let run := interp h (applyStorageClass expected) w in
  run = (answer.1.2, answer.2,
         [Ev (ListerGet name) (Ok current);
          Ev (ApplyStorageClass expected) answer.1])
  /\ deletes run.2 = []
  /\ applies run.2 = [expected].
Proof.
  intros name Hget Heq answer run. subst run answer.
  rewrite (applyStorageClass_same h expected w current w1 Hget Heq).
  repeat split.
Qed.

Lemma matching_parameters_apply_without_delete_witness :
  let expected := examples.generate (examples.shareType "default") in
  let current :=
    withObjectMeta expected
      {| metav1.Name := "manila-default"; metav1.Namespace := "";
         metav1.UID := "41c0"; metav1.ResourceVersion := "977";
         metav1.Labels := ∅;
         metav1.Annotations :=
           {[ storagev1.IsDefaultStorageClassAnnotation := "true" ]} |} in
  let settled :=
    examples.withStore examples.cluster {[ "manila-default" := current ]}
                                        {[ "manila-default" := current ]} in
  let run := interp fake.handle (applyStorageClass expected) settled in
  fake.handle _ (ListerGet "manila-default") settled = (Ok current, settled)
  /\ storagev1.Parameters expected = storagev1.Parameters current
  /\ run.1.1 = None
  /\ deletes run.2 = []
  /\ applies run.2 = [expected].
Proof.
  intros expected current settled run.
  pose proof (matching_parameters_apply_without_delete fake.handle expected
                current settled settled eq_refl eq_refl)
    as (Hrun & Hdel & Happ).
  split; [reflexivity |].
  split; [reflexivity |].
  split; [| split; [exact Hdel | exact Happ]].
  subst run. rewrite Hrun. reflexivity.
Defined.

(** X4.  Whatever the environment answers, one [applyStorageClass] makes
    its lister lookup first and then at most one delete and at most one
    apply, three calls at most, and never spawns or updates the status.  A
    delete is always of the expected name and is made only after the lister
    returned a class whose parameters differ from the expected ones; and the
    apply is left out only after a failed delete, whose error is returned
    unless it is a "not found". *)
Theorem applyStorageClass_call_budget {W : Type} (h : Handler W)
    (expected : storagev1.StorageClass) (w : W) :
  let name := metav1.Name (storagev1.ObjectMeta expected) in
  let run := interp h (applyStorageClass expected) w in
  (exists r rest, run.2 = Ev (ListerGet name) r :: rest)
  /\ lookups run.2 = [name]
  /\ (deletes run.2 = [] \/ deletes run.2 = [name])
  /\ (length (applies run.2) <= 1)%nat
  /\ (length run.2 <= 3)%nat
  /\ launches run.2 = [] /\ statusUpdates run.2 = []
  /\ (deletes run.2 = [name] ->
        exists current,
          In (Ev (ListerGet name) (Ok current)) run.2
          /\ storagev1.Parameters expected <> storagev1.Parameters current)
  /\ (applies run.2 = [] ->
        exists err,
          In (Ev (DeleteStorageClass name) (Some err)) run.2
          /\ run.1.1 = if apierrors.IsNotFound err then None else Some err).
Proof.
  intros name run. subst run.
  destruct (h _ (ListerGet name) w) as [[current | e] w1] eqn:Hget.
  - destruct (decide (storagev1.Parameters expected
                      = storagev1.Parameters current)) as [Heq | Hne].
    + rewrite (applyStorageClass_same h expected w current w1 Hget Heq).
      cbn. repeat split; eauto; try lia; discriminate.
    + destruct (h _ (DeleteStorageClass name) w1) as [[err |] w2] eqn:Hdel.
      * rewrite (applyStorageClass_delete_error h expected w current w1 err w2
                   Hget Hne Hdel).
        cbn. repeat split; eauto; try lia.
      * rewrite (applyStorageClass_replace h expected w current w1 w2
                   Hget Hne Hdel).
        cbn. repeat split; eauto; try lia; try discriminate.
  - rewrite (applyStorageClass_absent h expected w e w1 Hget).
    cbn. repeat split; eauto; try lia; discriminate.
Qed.

Lemma applyStorageClass_call_budget_witness :
  let expected := examples.generate (examples.shareType "default") in
  let run := interp fake.handle (applyStorageClass expected) examples.upgraded in
  deletes run.2 = ["manila-default"]
  /\ length run.2 = 3%nat
  /\ (exists current,
        In (Ev (ListerGet "manila-default") (Ok current)) run.2
        /\ storagev1.Parameters expected <> storagev1.Parameters current).
Proof.
  intros expected run.
  pose proof (applyStorageClass_call_budget fake.handle expected
                examples.upgraded) as (_ & _ & _ & _ & _ & _ & _ & Hstale & _).
  split; [reflexivity |]. split; [reflexivity |].
  apply Hstale. reflexivity.
Defined.

(** ** What a sync deletes *)


Lemma deletes_app (t1 t2 : list Event) :
  deletes (t1 ++ t2) = deletes t1 ++ deletes t2.
Proof. apply omap_app. Qed.

Lemma applies_app (t1 t2 : list Event) :
  applies (t1 ++ t2) = applies t1 ++ applies t2.
Proof. apply omap_app. Qed.





(** ** Reconciling classes that are up to date *)

Section UpToDate.

Variables (StorageClassNamePrefix ManilaSecretName OperatorNamespace : string).

Let generate :=
  generateStorageClass StorageClassNamePrefix ManilaSecretName OperatorNamespace.

Context {W : Type} (h : Handler W) (Inv : W -> Prop).

Variable shareTypes : list sharetypes.ShareType.

Hypothesis kept : forall R (c : Call R) w, Inv w -> Inv (h _ c w).2.

Hypothesis current_in_lister :
  forall w shareType,
    Inv w -> In shareType shareTypes ->
    exists current,
      (h _ (ListerGet (metav1.Name (storagev1.ObjectMeta (generate shareType)))) w).1
      = Ok current
      /\ storagev1.Parameters current = storagev1.Parameters (generate shareType).

Lemma runItems_up_to_date (todo : list sharetypes.ShareType) (w : W) :
  (forall shareType, In shareType todo -> In shareType shareTypes) ->
  Inv w ->
  let items := runItems h generate todo w in
  deletes (concat items.2) = []
  /\ applies (concat items.2) = map generate todo
  /\ length (concat items.2) = (2 * length todo)%nat
  /\ Inv items.1.2.
Proof.
  revert w. induction todo as [| shareType rest IH]; intros w Hsub Hinv.
  - repeat split. exact Hinv.
  - cbn [runItems].
    destruct (current_in_lister w shareType Hinv (Hsub _ (or_introl eq_refl)))
      as (current & Hget & Hpar).
    set (name := metav1.Name (storagev1.ObjectMeta (generate shareType))) in *.
    destruct (h _ (ListerGet name) w) as [got w1] eqn:Hcall.
    cbn [fst] in Hget. subst got.
    rewrite (applyStorageClass_same h (generate shareType) w current w1 Hcall
               (eq_sym Hpar)).
    assert (Hinv1 : Inv w1).
    { pose proof (kept _ (ListerGet name) w Hinv) as Hk.
      rewrite Hcall in Hk. exact Hk. }
    pose proof (kept _ (ApplyStorageClass (generate shareType)) w1 Hinv1) as Hinv2.
    specialize (IH (h _ (ApplyStorageClass (generate shareType)) w1).2
                  (fun st Hst => Hsub st (or_intror Hst)) Hinv2).
    destruct (runItems h generate rest _) as [[rets w3] ts].
    cbn [fst snd concat] in *. cbv zeta in IH.
    destruct IH as (I1 & I2 & I3 & I4).
    rewrite deletes_app, applies_app, I1, I2, length_app, I3.
    cbn. repeat split; [f_equal; lia | exact I4].
Qed.

End UpToDate.

(** X6.  Reconciling when nothing changed: if throughout the run the lister
    returns, for the class name of every share type of the list, a class
    with the generated parameters, then [syncStorageClasses] deletes
    nothing and makes exactly one lookup and one apply per share type, the
    apply being of the generated class, in the order of the list. *)
Theorem reconcile_of_current_classes_only_applies
    (StorageClassNamePrefix ManilaSecretName OperatorNamespace : string)
    {W : Type} (h : Handler W) (Inv : W -> Prop)
    (shareTypes : list sharetypes.ShareType) (w : W) :
  let generate :=
    generateStorageClass StorageClassNamePrefix ManilaSecretName OperatorNamespace in
  (forall R (c : Call R) w, Inv w -> Inv (h _ c w).2) ->
  (forall w shareType,
      Inv w -> In shareType shareTypes ->
      exists current,
        (h _ (ListerGet (metav1.Name (storagev1.ObjectMeta (generate shareType)))) w).1
        = Ok current
        /\ storagev1.Parameters current
           = storagev1.Parameters (generate shareType)) ->
  Inv w ->
  let run :=
    interp h (syncStorageClasses StorageClassNamePrefix ManilaSecretName
                OperatorNamespace shareTypes) w in
  deletes run.2 = []
  /\ applies run.2 = map generate shareTypes
  /\ lookups run.2
     = map (fun shareType => StorageClassNamePrefix +:+ sharetypes.Name shareType)
         shareTypes
  /\ length run.2 = (2 * length shareTypes)%nat
  /\ Inv run.1.2.
Proof.
  intros generate Hkept Hlister Hinv run. subst run.
  rewrite interp_syncStorageClasses. fold generate. cbn [fst snd].
  pose proof (runItems_up_to_date StorageClassNamePrefix ManilaSecretName
                OperatorNamespace h Inv shareTypes Hkept Hlister shareTypes w
                (fun _ H => H) Hinv) as (H1 & H2 & H3 & H4).
  pose proof (runItems_log h generate shareTypes w) as (Hlook & _).
  fold generate in H1, H2, H3, H4.
  split; [exact H1 |]. split; [exact H2 |]. split; [exact Hlook |].
  split; [exact H3 | exact H4].
Qed.

Lemma fake_keeps_lister {R : Type} (c : Call R) (w : fake.World) :
  fake.cache (fake.handle _ c w).2 = fake.cache w
  /\ fake.listErr (fake.handle _ c w).2 = fake.listErr w.
Proof.
  destruct c; simpl; try (split; reflexivity).
  - destruct (fake.deleteErr w !! name); [split; reflexivity |].
    destruct (fake.classes w !! name); split; reflexivity.
  - destruct (fake.applyErr w !! _); split; reflexivity.
  - destruct (fake.updateErr w); [split; reflexivity |].
    destruct (v1helpers.applyUpdateFuncs updateFuncs (fake.status w))
      as [st [err |]]; split; reflexivity.
Qed.

Lemma reconcile_of_current_classes_only_applies_witness :
  let shareTypes := [examples.shareType "default"; examples.shareType "fast"] in
  let store : gmap string storagev1.StorageClass :=
    {[ "manila-default" := examples.generate (examples.shareType "default");
       "manila-fast" := examples.generate (examples.shareType "fast") ]} in
  let settled := examples.withStore examples.cluster store store in
  let Inv w := fake.cache w = store /\ fake.listErr w = ∅ in
  let run :=
    interp fake.handle
      (syncStorageClasses examples.prefix examples.secretName
         examples.namespace shareTypes) settled in
  Inv settled
  /\ run.1.1 = None
  /\ deletes run.2 = []
  /\ applies run.2 = map examples.generate shareTypes
  /\ fake.classes run.1.2 = store.
Proof.
  intros shareTypes store settled Inv run.
  assert (Hinv : Inv settled) by (split; reflexivity).
  pose proof (reconcile_of_current_classes_only_applies examples.prefix
                examples.secretName examples.namespace fake.handle Inv
                shareTypes settled) as Hrun.
  cbv zeta in Hrun.
  assert (Hkept : forall R (c : Call R) w, Inv w -> Inv (fake.handle _ c w).2).
  { intros R c w [H1 H2]. destruct (fake_keeps_lister c w) as [K1 K2].
    split; congruence. }
  assert (Hlister : forall w shareType,
            Inv w -> In shareType shareTypes ->
            exists current,
              (fake.handle _
                 (ListerGet (metav1.Name (storagev1.ObjectMeta
                    (generateStorageClass examples.prefix examples.secretName
                       examples.namespace shareType)))) w).1 = Ok current
              /\ storagev1.Parameters current
                 = storagev1.Parameters
                     (generateStorageClass examples.prefix examples.secretName
                        examples.namespace shareType)).
  { intros w shareType [H1 H2] [Hst | [Hst | []]]; subst shareType;
      cbn [fake.handle fst]; rewrite H1, H2; eexists; split; reflexivity. }
  destruct (Hrun Hkept Hlister Hinv) as (Hdel & Happ & _).
  split; [exact Hinv |].
  split; [vm_compute; reflexivity |].
  split; [exact Hdel |].
  split; [exact Happ |].
  vm_compute. reflexivity.
Defined.

(** ** The status update of a sync *)

Lemma statusUpdates_app (t1 t2 : list Event) :
  statusUpdates (t1 ++ t2) = statusUpdates t1 ++ statusUpdates t2.
Proof. apply omap_app. Qed.

(** A run that logs no status update leaves the stored status alone. *)
Lemma interp_status_frame {W A : Type} (h : Handler W)
    (status : W -> operatorv1.OperatorStatus) (p : Prog A) (w : W) :
  StatusStore h status ->
  statusUpdates (interp h p w).2 = [] ->
  status (interp h p w).1.2 = status w.
Proof.
  intros [_ Hframe]. revert w.
  induction p as [a | R c k IH]; intros w; simpl; [reflexivity |].
  pose proof (Hframe R c w) as Hc.
  destruct (h R c w) as [r w1]. specialize (IH r w1).
  destruct (interp h (k r) w1) as [[a w2] t]. cbn [fst snd] in *.
  intros Hnone.
  destruct (isUpdateStatus c) eqn:Hkind.
  - destruct c; discriminate.
  - rewrite IH; [exact (Hc eq_refl) |].
    destruct c; try discriminate; exact Hnone.
Qed.

(** X7.  A managed sync that gets share types and whose items all succeed
    makes its calls in this order: the state read, the probe, the spawns
    (if the flag was down), the calls of the items, and last one status
    update, [setEnabled]; it returns what that update returns, with the
    flag set. *)
Theorem successful_sync_order
    (StorageClassNamePrefix ManilaSecretName OperatorNamespace : string)
    {W : Type} (h : Handler W) (c : Controller) (w w1 w2 : W)
    (opSpec : operatorv1.OperatorSpec) (st : operatorv1.OperatorStatus)
    (resourceVersion : string)
    (shareType : sharetypes.ShareType) (rest : list sharetypes.ShareType) :
  h _ GetOperatorState w = (Ok (opSpec, st, resourceVersion), w1) ->
  operatorv1.ManagementState_ opSpec = operatorv1.Managed ->
  h _ GetShareTypes w1 = (Ok (shareType :: rest), w2) ->
  let generate :=
    generateStorageClass StorageClassNamePrefix ManilaSecretName OperatorNamespace in
  let w3 :=
    if controllersRunning c then w2 else spawned h (csiControllers c) w2 in
  let items := runItems h generate (shareType :: rest) w3 in
  let answer := h _ (UpdateStatus enabledUpdate) items.1.2 in
  let run :=
    interp h (sync StorageClassNamePrefix ManilaSecretName OperatorNamespace c) w in
  failures items.1.1 = [] ->
  run = ((answer.1.2, launched c), answer.2,
         [Ev GetOperatorState (Ok (opSpec, st, resourceVersion));
          Ev GetShareTypes (Ok (shareType :: rest))]
         ++ launchLog c ++ concat items.2
         ++ [Ev (UpdateStatus enabledUpdate) answer.1])
  /\ controllersRunning run.1.1.2 = true
  /\ statusUpdates run.2 = [enabledUpdate].
Proof.
  intros Hstate Hmanaged Hprobe generate w3 items answer run Hfine. subst run.
  rewrite (sync_reconcile StorageClassNamePrefix ManilaSecretName
             OperatorNamespace h c w w1 w2 opSpec st resourceVersion
             shareType rest Hstate Hmanaged Hprobe).
  fold generate. fold w3. fold items. rewrite Hfine. cbn [errors.NewAggregate].
  fold answer. split; [reflexivity |]. cbn [fst snd]. split.
  - unfold launched, started. destruct (controllersRunning c) eqn:E; auto.
  - pose proof (launchLog_reads c) as (_ & _ & Hl & _).
    pose proof (runItems_log h generate (shareType :: rest) w3) as (_ & Hi & _).
    fold items in Hi. rewrite !statusUpdates_app, Hl, Hi. reflexivity.
Qed.

Lemma successful_sync_order_witness :
  let run :=
    interp fake.handle
      (sync examples.prefix examples.secretName examples.namespace
         examples.controller) examples.cluster in
  fake.handle _ GetShareTypes examples.cluster
  = (Ok [examples.shareType "default"; examples.shareType "fast"],
     examples.cluster)
  /\ run.1.1 = (None, started examples.controller)
  /\ statusUpdates run.2 = [enabledUpdate]
  /\ lookups run.2 = ["manila-default"; "manila-fast"]
  /\ length run.2 = 9%nat.
Proof.
  intros run.
  pose proof (successful_sync_order examples.prefix examples.secretName
                examples.namespace fake.handle examples.controller
                examples.cluster examples.cluster examples.cluster
                examples.managed examples.noConditions "1"
                (examples.shareType "default") [examples.shareType "fast"]
                eq_refl eq_refl eq_refl) as Hrun.
  cbv zeta in Hrun.
  destruct (Hrun ltac:(vm_compute; reflexivity)) as (Heq & _ & Hupd).
  split; [reflexivity |].
  split; [subst run; rewrite Heq; reflexivity |].
  split; [exact Hupd |].
  split; vm_compute; reflexivity.
Defined.

(** X8.  Whatever the environment answers, a [sync] makes at most one
    status update; if it makes one, that update is its last call, it is
    [setEnabled] or one of the two [setDisabled], and the sync returns the
    error of that update.  A sync that makes no status update leaves the
    stored operator status exactly as it was. *)
Theorem sync_updates_status_once_and_last
    (StorageClassNamePrefix ManilaSecretName OperatorNamespace : string)
    {W : Type} (h : Handler W) (c : Controller) (w : W) :
  let run :=
    interp h (sync StorageClassNamePrefix ManilaSecretName OperatorNamespace c) w in
  (statusUpdates run.2 = []
   \/ exists updateFuncs answer before,
        run.2 = before ++ [Ev (UpdateStatus updateFuncs) answer]
        /\ statusUpdates before = []
        /\ run.1.1.1 = answer.2
        /\ (updateFuncs = enabledUpdate
            \/ updateFuncs
               = disabledUpdate "This OpenStack does not provide Manila service"
            \/ updateFuncs
               = disabledUpdate "Manila does not provide any share types"))
  /\ (forall status : W -> operatorv1.OperatorStatus,
        StatusStore h status ->
        statusUpdates run.2 = [] ->
        status run.1.2 = status w).
Proof.
  intros run. split.
  2: { intros status store Hnone. apply interp_status_frame; assumption. }
  subst run.
  destruct (h _ GetOperatorState w) as [[[[opSpec st] rv] | e] w1] eqn:Hstate.
  - destruct (decide (operatorv1.ManagementState_ opSpec = operatorv1.Managed))
      as [Hm | Hm].
    + destruct (h _ GetShareTypes w1) as [[[| shareType rest] | e] w2] eqn:Hprobe.
      * rewrite (sync_no_share_types _ _ _ h c w opSpec st rv w1 Hstate Hm w2 Hprobe).
        right. eexists _, _, [_; _]. cbn [fst snd app].
        split; [reflexivity |]. split; [reflexivity |]. split; [reflexivity |].
        right. right. reflexivity.
      * rewrite (sync_reconcile _ _ _ h c w w1 w2 opSpec st rv shareType rest
                   Hstate Hm Hprobe).
        pose proof (launchLog_reads c) as (_ & _ & Hl & _).
        pose proof (runItems_log h
                      (generateStorageClass StorageClassNamePrefix
                         ManilaSecretName OperatorNamespace)
                      (shareType :: rest)
                      (if controllersRunning c then w2
                       else spawned h (csiControllers c) w2))
          as (_ & Hi & _).
        set (items := runItems h _ (shareType :: rest) _) in *.
        set (probe := [Ev GetOperatorState (Ok (opSpec, st, rv));
                       Ev GetShareTypes (Ok (shareType :: rest))]).
        destruct (errors.NewAggregate _) as [err |]; cbn [fst snd].
        -- left. rewrite !statusUpdates_app, Hl, Hi. reflexivity.
        -- right.
           exists enabledUpdate, (h _ (UpdateStatus enabledUpdate) items.1.2).1,
             (probe ++ launchLog c ++ concat items.2).
           split; [rewrite <- !app_assoc; reflexivity |].
           split; [rewrite !statusUpdates_app, Hl, Hi; reflexivity |].
           split; [reflexivity |]. left. reflexivity.
      * destruct (isErrEndpointNotFound e) eqn:He.
        -- destruct e as [m | | |]; try discriminate.
           rewrite (sync_not_supported _ _ _ h c w opSpec st rv w1 Hstate Hm
                      m w2 Hprobe).
           right. eexists _, _, [_; _]. cbn [fst snd app].
           split; [reflexivity |]. split; [reflexivity |]. split; [reflexivity |].
           right. left. reflexivity.
        -- rewrite (sync_probe_error _ _ _ h c w opSpec st rv w1 Hstate Hm
                      e w2 Hprobe He).
           left. reflexivity.
    + rewrite (sync_not_managed _ _ _ h c w opSpec st rv w1 Hstate Hm).
      left. reflexivity.
  - rewrite (sync_state_error _ _ _ h c w e w1 Hstate). left. reflexivity.
Qed.

Lemma sync_updates_status_once_and_last_witness :
  let shareTypes := [examples.shareType "a"; examples.shareType "b"] in
  let broken :=
    {| fake.getStateErr := None; fake.spec := examples.managed;
       fake.status := examples.available; fake.updateErr := None;
       fake.shareTypes := Ok shareTypes; fake.listErr := ∅;
       fake.cache := ∅; fake.classes := ∅; fake.deleteErr := ∅;
       fake.applyErr := {[ "manila-a" := ErrOther "quota exceeded" ]};
       fake.running := [] |} in
  let run :=
    interp fake.handle
      (sync examples.prefix examples.secretName examples.namespace
         examples.controller) broken in
  StatusStore fake.handle fake.status
  /\ statusUpdates run.2 = []
  /\ run.1.1.1 = Some (Aggregate [ErrOther "quota exceeded"])
  /\ fake.status run.1.2 = examples.available.
Proof.
  intros shareTypes broken run.
  pose proof (sync_updates_status_once_and_last examples.prefix
                examples.secretName examples.namespace fake.handle
                examples.controller broken) as [_ Hframe].
  assert (Hnone : statusUpdates run.2 = []) by (vm_compute; reflexivity).
  split; [exact fake_StatusStore |].
  split; [exact Hnone |].
  split; [vm_compute; reflexivity |].
  exact (Hframe fake.status fake_StatusStore Hnone).
Defined.

(** X9.  Against a status store that applies an update whole or not at
    all: a managed sync that returns nil has settled the operator in exactly
    one of its two states.  Either it got share types and the stored status
    has the Available condition true and no Disabled condition, or it got
    none (no Manila endpoint, or an empty list) and the stored status has
    the Disabled condition true with reason "NoManila" and no Available
    condition. *)
Theorem nil_managed_sync_settles_the_state
    (StorageClassNamePrefix ManilaSecretName OperatorNamespace : string)
    {W : Type} (h : Handler W) (status : W -> operatorv1.OperatorStatus)
    (c : Controller) (w w1 : W)
    (opSpec : operatorv1.OperatorSpec) (st : operatorv1.OperatorStatus)
    (resourceVersion : string) :
  StatusStore h status ->
  h _ GetOperatorState w = (Ok (opSpec, st, resourceVersion), w1) ->
  operatorv1.ManagementState_ opSpec = operatorv1.Managed ->
  let run :=
    interp h (sync StorageClassNamePrefix ManilaSecretName OperatorNamespace c) w in
  let find :=
    v1helpers.FindOperatorCondition (operatorv1.Conditions (status run.1.2)) in
  run.1.1.1 = None ->
  (sawShareTypes run.2 = true
   /\ find AvailableType = Some availableCnd
   /\ find DisabledType = None)
  \/ (sawShareTypes run.2 = false
      /\ find AvailableType = None
      /\ exists msg,
           find DisabledType
           = Some {| operatorv1.Type_ := "ManilaControllerDisabled";
                     operatorv1.Status := operatorv1.ConditionTrue;
                     operatorv1.Reason := "NoManila";
                     operatorv1.Message := msg |}).
Proof.
  intros store Hstate Hm run find. subst find run.
  destruct (h _ GetShareTypes w1) as [[[| shareType rest] | e] w2] eqn:Hprobe.
  - rewrite (sync_no_share_types _ _ _ h c w opSpec st resourceVersion w1
               Hstate Hm w2 Hprobe).
    cbn [fst snd]. intros Hnil. right.
    destruct (transition_outcome h status store
                (disabledCnd "Manila does not provide any share types")
                AvailableType w2 Available_not_Disabled) as [Hcommit _].
    destruct (Hcommit Hnil) as [Hd Ha].
    split; [reflexivity |]. split; [exact Ha |]. eexists. exact Hd.
  - rewrite (sync_reconcile _ _ _ h c w w1 w2 opSpec st resourceVersion
               shareType rest Hstate Hm Hprobe).
    set (items := runItems h _ (shareType :: rest) _).
    destruct (errors.NewAggregate _) as [err |]; cbn [fst snd];
      [discriminate |].
    intros Hnil. left.
    destruct (transition_outcome h status store availableCnd DisabledType
                items.1.2 (not_eq_sym Available_not_Disabled))
      as [Hcommit _].
    destruct (Hcommit Hnil) as [Ha Hd].
    split; [reflexivity |]. split; [exact Ha | exact Hd].
  - destruct (isErrEndpointNotFound e) eqn:He.
    + destruct e as [m | | |]; try discriminate.
      rewrite (sync_not_supported _ _ _ h c w opSpec st resourceVersion w1
                 Hstate Hm m w2 Hprobe).
      cbn [fst snd]. intros Hnil. right.
      destruct (transition_outcome h status store
                  (disabledCnd "This OpenStack does not provide Manila service")
                  AvailableType w2 Available_not_Disabled) as [Hcommit _].
      destruct (Hcommit Hnil) as [Hd Ha].
      split; [reflexivity |]. split; [exact Ha |]. eexists. exact Hd.
    + rewrite (sync_probe_error _ _ _ h c w opSpec st resourceVersion w1
                 Hstate Hm e w2 Hprobe He).
      cbn [fst snd]. discriminate.
Qed.

Lemma nil_managed_sync_settles_the_state_witness :
  let disabled :=
    v1helpers.withConditions examples.noConditions
      [disabledCnd "Manila does not provide any share types"] in
  let recovered := fake.withStatus examples.cluster disabled in
  let run :=
    interp fake.handle
      (sync examples.prefix examples.secretName examples.namespace
         examples.controller) recovered in
  StatusStore fake.handle fake.status
  /\ fake.handle _ GetOperatorState recovered
     = (Ok (examples.managed, disabled, "1"), recovered)
  /\ run.1.1.1 = None
  /\ operatorv1.Conditions (fake.status run.1.2) = [availableCnd]
  /\ sawShareTypes run.2 = true.
Proof.
  intros disabled recovered run.
  assert (Hnil : run.1.1.1 = None) by (vm_compute; reflexivity).
  pose proof (nil_managed_sync_settles_the_state examples.prefix
                examples.secretName examples.namespace fake.handle fake.status
                examples.controller recovered recovered examples.managed
                disabled "1" fake_StatusStore eq_refl eq_refl Hnil)
    as [(Hsaw & _ & _) | (Hsaw & _)].
  - split; [exact fake_StatusStore |]. split; [reflexivity |].
    split; [exact Hnil |]. split; [vm_compute; reflexivity | exact Hsaw].
  - exfalso. vm_compute in Hsaw. discriminate.
Defined.

(** ** What a transition stores *)

Section CommittedTransition.
Import operatorv1 v1helpers.

Lemma Set_found_id (cs : list OperatorCondition) (cnd : OperatorCondition) :
  FindOperatorCondition cs (Type_ cnd) = Some cnd ->
  SetOperatorCondition cs cnd = cs.
Proof.
  induction cs as [| c rest IH]; simpl; [discriminate |].
  destruct (bool_decide (Type_ c = Type_ cnd)) eqn:E.
  - intros Hfound. injection Hfound as ->. destruct cnd. reflexivity.
  - intros Hfound. rewrite IH by exact Hfound. reflexivity.
Qed.

Lemma Remove_absent_id (cs : list OperatorCondition) (ty : string) :
  FindOperatorCondition cs ty = None ->
  RemoveOperatorCondition cs ty = cs.
Proof.
  induction cs as [| c rest IH]; simpl; [reflexivity |].
  destruct (bool_decide (Type_ c = ty)); [discriminate |].
  intros Hnone. rewrite IH by exact Hnone. reflexivity.
Qed.

Lemma set_remove_twice (cs : list OperatorCondition) (cnd : OperatorCondition)
    (ty : string) :
  ty <> Type_ cnd ->
  let cs' := RemoveOperatorCondition (SetOperatorCondition cs cnd) ty in
  RemoveOperatorCondition (SetOperatorCondition cs' cnd) ty = cs'.
Proof.
  intros Hne cs'.
  assert (Hfound : FindOperatorCondition cs' (Type_ cnd) = Some cnd).
  { subst cs'. rewrite Find_Remove_other by congruence. apply Find_Set_same. }
  rewrite (Set_found_id cs' cnd Hfound).
  apply Remove_absent_id. subst cs'. apply Find_Remove_same.
Qed.

Context {W : Type} (h : Handler W) (status : W -> OperatorStatus).
Hypothesis store : StatusStore h status.

(** The status that a committed transition stores. *)
Lemma transition_commit (cnd : OperatorCondition) (ty : string) (w : W) :
  let answer := h _ (UpdateStatus [UpdateConditionFn cnd; removeConditionFn ty]) w in
  answer.1.2 = None ->
  status answer.2
  = withConditions (status w)
      (RemoveOperatorCondition
         (SetOperatorCondition (Conditions (status w)) cnd) ty).
Proof.
  intros answer Hok. subst answer. destruct store as [Hupdate _].
  specialize (Hupdate [UpdateConditionFn cnd; removeConditionFn ty] w).
  rewrite Hok in Hupdate. rewrite applyUpdateFuncs_set_remove in Hupdate.
  injection Hupdate as <-. reflexivity.
Qed.

End CommittedTransition.

(** X10.  Against a status store that applies an update whole or not at
    all, a committed [setEnabled] or [setDisabled] changes nothing of the
    operator status but its own two conditions: every condition of another
    type is found as before, and the observed generation, the version and
    the ready replicas stay. *)
Theorem transitions_leave_the_rest_of_the_status {W : Type} (h : Handler W)
    (status : W -> operatorv1.OperatorStatus) (w : W) (msg other : string) :
  StatusStore h status ->
  other <> AvailableType ->
  other <> DisabledType ->
  let find s := v1helpers.FindOperatorCondition (operatorv1.Conditions s) in
  let untouched s :=
    find s other = find (status w) other
    /\ operatorv1.ObservedGeneration s = operatorv1.ObservedGeneration (status w)
    /\ operatorv1.Version s = operatorv1.Version (status w)
    /\ operatorv1.ReadyReplicas s = operatorv1.ReadyReplicas (status w) in
  let enabled := interp h setEnabled w in
  let disabled := interp h (setDisabled msg) w in
  (enabled.1.1 = None -> untouched (status enabled.1.2))
  /\ (disabled.1.1 = None -> untouched (status disabled.1.2)).
Proof.
  intros store Ha Hd find untouched enabled disabled.
  subst enabled disabled untouched find.
  rewrite interp_setEnabled, interp_setDisabled. cbn [fst snd].
  unfold enabledUpdate, disabledUpdate. split.
  - intros Hok.
    rewrite (transition_commit h status store availableCnd DisabledType w Hok).
    cbn [v1helpers.withConditions operatorv1.Conditions
         operatorv1.ObservedGeneration operatorv1.Version
         operatorv1.ReadyReplicas].
    split; [| repeat split].
    rewrite Find_Remove_other by exact Hd. apply Find_Set_other. exact Ha.
  - intros Hok.
    rewrite (transition_commit h status store (disabledCnd msg) AvailableType
               w Hok).
    cbn [v1helpers.withConditions operatorv1.Conditions
         operatorv1.ObservedGeneration operatorv1.Version
         operatorv1.ReadyReplicas].
    split; [| repeat split].
    rewrite Find_Remove_other by exact Ha. apply Find_Set_other. exact Hd.
Qed.

Lemma transitions_leave_the_rest_of_the_status_witness :
  let degraded :=
    {| operatorv1.Type_ := "ManilaControllerDegraded";
       operatorv1.Status := operatorv1.ConditionFalse;
       operatorv1.Reason := "AsExpected"; operatorv1.Message := "" |} in
  let before :=
    fake.withStatus examples.cluster
      (v1helpers.withConditions examples.noConditions [degraded; availableCnd]) in
  let run := interp fake.handle (setDisabled "gone") before in
  StatusStore fake.handle fake.status
  /\ "ManilaControllerDegraded" <> AvailableType
  /\ "ManilaControllerDegraded" <> DisabledType
  /\ run.1.1 = None
  /\ v1helpers.FindOperatorCondition
       (operatorv1.Conditions (fake.status run.1.2)) "ManilaControllerDegraded"
     = Some degraded
  /\ operatorv1.Version (fake.status run.1.2) = "4.6.0".
Proof.
  intros degraded before run.
  assert (Ha : "ManilaControllerDegraded" <> AvailableType) by discriminate.
  assert (Hd : "ManilaControllerDegraded" <> DisabledType) by discriminate.
  pose proof (transitions_leave_the_rest_of_the_status fake.handle fake.status
                before "gone" "ManilaControllerDegraded" fake_StatusStore Ha Hd)
    as [_ Hdis].
  destruct (Hdis eq_refl) as (Hfind & _ & Hver & _).
  split; [exact fake_StatusStore |].
  split; [exact Ha |]. split; [exact Hd |].
  split; [reflexivity |].
  split; [exact (eq_trans Hfind eq_refl) | exact (eq_trans Hver eq_refl)].
Defined.

(** X11.  Against a status store that applies an update whole or not at
    all, repeating a committed transition stores the same status again: a
    second [setEnabled] after a first, or a second [setDisabled] with the
    same message after a first, changes nothing. *)
Theorem repeated_transition_changes_nothing {W : Type} (h : Handler W)
    (status : W -> operatorv1.OperatorStatus) (w : W) (msg : string) :
  StatusStore h status ->
  let enabled := interp h setEnabled w in
  let enabledAgain := interp h setEnabled enabled.1.2 in
  let disabled := interp h (setDisabled msg) w in
  let disabledAgain := interp h (setDisabled msg) disabled.1.2 in
  (enabled.1.1 = None -> enabledAgain.1.1 = None ->
     status enabledAgain.1.2 = status enabled.1.2)
  /\ (disabled.1.1 = None -> disabledAgain.1.1 = None ->
        status disabledAgain.1.2 = status disabled.1.2).
Proof.
  intros store enabled enabledAgain disabled disabledAgain.
  subst enabledAgain enabled disabledAgain disabled.
  rewrite !interp_setEnabled, !interp_setDisabled. cbn [fst snd].
  unfold enabledUpdate, disabledUpdate. split.
  - intros Hok Hagain.
    rewrite (transition_commit h status store availableCnd DisabledType _ Hagain).
    rewrite (transition_commit h status store availableCnd DisabledType w Hok).
    cbn [v1helpers.withConditions operatorv1.Conditions
         operatorv1.ObservedGeneration operatorv1.Version
         operatorv1.ReadyReplicas].
    rewrite (set_remove_twice _ availableCnd DisabledType
               (not_eq_sym Available_not_Disabled)).
    reflexivity.
  - intros Hok Hagain.
    rewrite (transition_commit h status store (disabledCnd msg) AvailableType
               _ Hagain).
    rewrite (transition_commit h status store (disabledCnd msg) AvailableType
               w Hok).
    cbn [v1helpers.withConditions operatorv1.Conditions
         operatorv1.ObservedGeneration operatorv1.Version
         operatorv1.ReadyReplicas].
    rewrite (set_remove_twice _ (disabledCnd msg) AvailableType
               Available_not_Disabled).
    reflexivity.
Qed.

Lemma repeated_transition_changes_nothing_witness :
  let first := interp fake.handle (setDisabled "gone") examples.cluster in
  let second := interp fake.handle (setDisabled "gone") first.1.2 in
  StatusStore fake.handle fake.status
  /\ first.1.1 = None /\ second.1.1 = None
  /\ fake.status second.1.2 = fake.status first.1.2
  /\ fake.status first.1.2 <> fake.status examples.cluster.
Proof.
  intros first second.
  pose proof (repeated_transition_changes_nothing fake.handle fake.status
                examples.cluster "gone" fake_StatusStore) as [_ Hdis].
  split; [exact fake_StatusStore |].
  split; [reflexivity |]. split; [reflexivity |].
  split; [exact (Hdis eq_refl eq_refl) |].
  intros Heq. apply (f_equal operatorv1.Conditions) in Heq.
  vm_compute in Heq. discriminate.
Defined.

(** ** Generated classes *)

Lemma append_inj_r (p a b : string) : p +:+ a = p +:+ b -> a = b.
Proof.
  induction p as [| ch p IH]; simpl; [auto |].
  intros Heq. injection Heq as Heq. auto.
Qed.

(** X12.  Two share types get the same storage class name exactly when
    they have the same name, and likewise the same parameters: share types
    of different names never share a class, whatever the prefix. *)
Theorem generated_classes_differ_by_name
    (StorageClassNamePrefix ManilaSecretName OperatorNamespace : string)
    (a b : sharetypes.ShareType) :
  let generate :=
    generateStorageClass StorageClassNamePrefix ManilaSecretName OperatorNamespace in
  (metav1.Name (storagev1.ObjectMeta (generate a))
   = metav1.Name (storagev1.ObjectMeta (generate b))
   <-> sharetypes.Name a = sharetypes.Name b)
  /\ (storagev1.Parameters (generate a) = storagev1.Parameters (generate b)
      <-> sharetypes.Name a = sharetypes.Name b)
  /\ (generate a = generate b <-> sharetypes.Name a = sharetypes.Name b).
Proof.
  intros generate.
  assert (Hgen : sharetypes.Name a = sharetypes.Name b -> generate a = generate b).
  { intros Heq. subst generate. unfold generateStorageClass. rewrite Heq.
    reflexivity. }
  assert (Hname : metav1.Name (storagev1.ObjectMeta (generate a))
                  = metav1.Name (storagev1.ObjectMeta (generate b)) ->
                  sharetypes.Name a = sharetypes.Name b).
  { subst generate. cbn [generateStorageClass storagev1.ObjectMeta metav1.Name].
    apply append_inj_r. }
  split; [split; [exact Hname | intros H; rewrite (Hgen H); reflexivity] |].
  split.
  - split; [| intros H; rewrite (Hgen H); reflexivity].
    intros Heq.
    assert (Htype : forall params params' : gmap string string,
              Some params = Some params' ->
              params !! "type" = params' !! "type") by (intros ? ? [= ->]; reflexivity).
    specialize (Htype _ _ Heq). vm_compute in Htype.
    injection Htype as Htype. exact Htype.
  - split; [| exact Hgen]. intros Heq. apply Hname. rewrite Heq. reflexivity.
Qed.

Lemma generated_classes_differ_by_name_witness :
  sharetypes.Name (examples.shareType "default")
  <> sharetypes.Name (examples.shareType "fast")
  /\ examples.generate (examples.shareType "default")
     <> examples.generate (examples.shareType "fast")
  /\ metav1.Name (storagev1.ObjectMeta
                    (examples.generate (examples.shareType "default")))
     <> metav1.Name (storagev1.ObjectMeta
                       (examples.generate (examples.shareType "fast"))).
Proof.
  pose proof (generated_classes_differ_by_name examples.prefix
                examples.secretName examples.namespace
                (examples.shareType "default") (examples.shareType "fast"))
    as (Hname & _ & Hclass).
  assert (Hne : sharetypes.Name (examples.shareType "default")
                <> sharetypes.Name (examples.shareType "fast")) by discriminate.
  split; [exact Hne |].
  split; [intros Heq; apply Hne, Hclass, Heq |].
  intros Heq. apply Hne, Hname, Heq.
Defined.

(** ** What a reconcile applies *)

Lemma applyStorageClass_applies {W : Type} (h : Handler W)
    (expected : storagev1.StorageClass) (w : W) (sc : storagev1.StorageClass) :
  let name := metav1.Name (storagev1.ObjectMeta expected) in
  let t := (interp h (applyStorageClass expected) w).2 in
  In sc (applies t) ->
  sc = expected
  \/ exists current,
       In (Ev (ListerGet name) (Ok current)) t
       /\ storagev1.Parameters expected <> storagev1.Parameters current
       /\ sc = withObjectMeta expected
                 (resourcemerge.EnsureObjectMeta
                    (storagev1.ObjectMeta current)
                    (storagev1.ObjectMeta expected)).2.
Proof.
  intros name.
  destruct (h _ (ListerGet name) w) as [[current | e] w1] eqn:Hget.
  - destruct (decide (storagev1.Parameters expected
                      = storagev1.Parameters current)) as [Heq | Hne].
    + rewrite (applyStorageClass_same h expected w current w1 Hget Heq).
      intros t [Hsc | []]. left. symmetry. exact Hsc.
    + destruct (h _ (DeleteStorageClass name) w1) as [[err |] w2] eqn:Hdel.
      * rewrite (applyStorageClass_delete_error h expected w current w1 err w2
                   Hget Hne Hdel).
        intros t [].
      * rewrite (applyStorageClass_replace h expected w current w1 w2
                   Hget Hne Hdel).
        intros t [Hsc | []]. right. exists current.
        split; [left; reflexivity |]. split; [exact Hne |].
        symmetry. exact Hsc.
  - rewrite (applyStorageClass_absent h expected w e w1 Hget).
    intros t [Hsc | []]. left. symmetry. exact Hsc.
Qed.

Lemma runItems_applies {W : Type} (h : Handler W)
    (generate : sharetypes.ShareType -> storagev1.StorageClass)
    (shareTypes : list sharetypes.ShareType) (w : W)
    (sc : storagev1.StorageClass) :
  let t := concat (runItems h generate shareTypes w).2 in
  In sc (applies t) ->
  exists shareType,
    In shareType shareTypes
    /\ (sc = generate shareType
        \/ exists current,
             In (Ev (ListerGet (metav1.Name (storagev1.ObjectMeta
                                              (generate shareType))))
                    (Ok current)) t
             /\ storagev1.Parameters (generate shareType)
                <> storagev1.Parameters current
             /\ sc = withObjectMeta (generate shareType)
                       (resourcemerge.EnsureObjectMeta
                          (storagev1.ObjectMeta current)
                          (storagev1.ObjectMeta (generate shareType))).2).
Proof.
  revert w. induction shareTypes as [| shareType rest IH]; intros w.
  - intros t [].
  - cbn [runItems].
    pose proof (applyStorageClass_applies h (generate shareType) w sc) as Hitem.
    destruct (interp h (applyStorageClass (generate shareType)) w)
      as [[err w1] t1].
    specialize (IH w1).
    destruct (runItems h generate rest w1) as [[rets w2] ts].
    cbn [fst snd concat] in *. cbv zeta in *. intros Hin.
    rewrite applies_app in Hin. apply in_app_or in Hin as [Hin | Hin].
    + exists shareType. split; [left; reflexivity |].
      destruct (Hitem Hin) as [Hsc | (current & Hev & Hne & Hsc)];
        [left; exact Hsc |].
      right. exists current. split; [| split; assumption].
      apply in_or_app. left. exact Hev.
    + destruct (IH Hin) as (st & Hst & Hcase).
      exists st. split; [right; exact Hst |].
      destruct Hcase as [Hsc | (current & Hev & Hne & Hsc)]; [left; exact Hsc |].
      right. exists current. split; [| split; assumption].
      apply in_or_app. right. exact Hev.
Qed.

(** X13.  Whatever the environment answers, every class that
    [syncStorageClasses] hands to the apply call is the class generated for
    a share type of its list, either as generated or, after the lister
    returned a class with other parameters, with that observed metadata
    merged in; in both cases it has the Manila provisioner and the
    parameters generated for that share type. *)
Theorem reconcile_applies_only_generated_classes
    (StorageClassNamePrefix ManilaSecretName OperatorNamespace : string)
    {W : Type} (h : Handler W) (shareTypes : list sharetypes.ShareType)
    (w : W) (sc : storagev1.StorageClass) :
  let generate :=
    generateStorageClass StorageClassNamePrefix ManilaSecretName OperatorNamespace in
  let t :=
    (interp h (syncStorageClasses StorageClassNamePrefix ManilaSecretName
                 OperatorNamespace shareTypes) w).2 in
  In sc (applies t) ->
  exists shareType,
    In shareType shareTypes
    /\ storagev1.Provisioner sc = "manila.csi.openstack.org"
    /\ storagev1.Parameters sc = storagev1.Parameters (generate shareType)
    /\ (sc = generate shareType
        \/ exists current,
             In (Ev (ListerGet (StorageClassNamePrefix
                                +:+ sharetypes.Name shareType)) (Ok current)) t
             /\ storagev1.Parameters (generate shareType)
                <> storagev1.Parameters current
             /\ sc = withObjectMeta (generate shareType)
                       (resourcemerge.EnsureObjectMeta
                          (storagev1.ObjectMeta current)
                          (storagev1.ObjectMeta (generate shareType))).2).
Proof.
  intros generate t. subst t. rewrite interp_syncStorageClasses.
  fold generate. cbn [fst snd]. intros Hin.
  destruct (runItems_applies h generate shareTypes w sc Hin)
    as (shareType & Hst & Hcase).
  exists shareType. split; [exact Hst |].
  destruct Hcase as [Hsc | (current & Hev & Hne & Hsc)].
  - subst sc. split; [reflexivity |]. split; [reflexivity |]. left. reflexivity.
  - subst sc. split; [reflexivity |]. split; [reflexivity |].
    right. exists current. split; [exact Hev |]. split; [exact Hne | reflexivity].
Qed.

Lemma reconcile_applies_only_generated_classes_witness :
  let shareTypes := [examples.shareType "default"; examples.shareType "fast"] in
  let t :=
    (interp fake.handle
       (syncStorageClasses examples.prefix examples.secretName
          examples.namespace shareTypes) examples.upgraded).2 in
  let replaced :=
    withObjectMeta (examples.generate (examples.shareType "default"))
      (storagev1.ObjectMeta examples.oldDefault) in
  applies t = [replaced; examples.generate (examples.shareType "fast")]
  /\ (exists shareType,
        In shareType shareTypes
        /\ storagev1.Provisioner replaced = "manila.csi.openstack.org"
        /\ storagev1.Parameters replaced
           = storagev1.Parameters (examples.generate shareType))
  /\ metav1.UID (storagev1.ObjectMeta replaced) = "8f2c".
Proof.
  intros shareTypes t replaced.
  assert (Happ : applies t
                 = [replaced; examples.generate (examples.shareType "fast")])
    by (vm_compute; reflexivity).
  split; [exact Happ |].
  destruct (reconcile_applies_only_generated_classes examples.prefix
              examples.secretName examples.namespace fake.handle shareTypes
              examples.upgraded replaced)
    as (shareType & Hst & Hprov & Hpar & _).
  { fold t. rewrite Happ. left. reflexivity. }
  split; [| reflexivity].
  exists shareType. split; [exact Hst |]. split; [exact Hprov | exact Hpar].
Defined.

(** ** Removing a condition *)

(** X14.  The update function built by [removeConditionFn] never fails.
    It leaves no condition of the given type, finds every condition of
    another type as before, keeps the other fields of the status, and
    changes nothing at all when there was no condition of that type. *)
Theorem removeConditionFn_removes_only_its_type (cnd : string)
    (oldStatus : operatorv1.OperatorStatus) :
  let find s := v1helpers.FindOperatorCondition (operatorv1.Conditions s) in
  let newStatus := (removeConditionFn cnd oldStatus).1 in
  (removeConditionFn cnd oldStatus).2 = None
  /\ find newStatus cnd = None
  /\ (forall other, other <> cnd -> find newStatus other = find oldStatus other)
  /\ operatorv1.ObservedGeneration newStatus
     = operatorv1.ObservedGeneration oldStatus
  /\ operatorv1.Version newStatus = operatorv1.Version oldStatus
  /\ operatorv1.ReadyReplicas newStatus = operatorv1.ReadyReplicas oldStatus
  /\ (find oldStatus cnd = None -> newStatus = oldStatus).
Proof.
  intros find newStatus. subst find newStatus. unfold removeConditionFn.
  cbn [fst snd v1helpers.withConditions operatorv1.Conditions
       operatorv1.ObservedGeneration operatorv1.Version
       operatorv1.ReadyReplicas].
  split; [reflexivity |].
  split; [apply Find_Remove_same |].
  split; [intros other Hne; apply Find_Remove_other; exact Hne |].
  split; [reflexivity |]. split; [reflexivity |]. split; [reflexivity |].
  intros Hnone. rewrite (Remove_absent_id _ _ Hnone).
  destruct oldStatus. reflexivity.
Qed.

Lemma removeConditionFn_removes_only_its_type_witness :
  let twice :=
    v1helpers.withConditions examples.noConditions
      [disabledCnd "first"; availableCnd; disabledCnd "second"] in
  (removeConditionFn DisabledType twice).1
  = v1helpers.withConditions examples.noConditions [availableCnd]
  /\ v1helpers.FindOperatorCondition
       (operatorv1.Conditions examples.available) DisabledType = None
  /\ (removeConditionFn DisabledType examples.available).1 = examples.available.
Proof.
  intros twice.
  pose proof (removeConditionFn_removes_only_its_type DisabledType
                examples.available) as (_ & _ & _ & _ & _ & _ & Hid).
  assert (Hnone : v1helpers.FindOperatorCondition
                    (operatorv1.Conditions examples.available) DisabledType
                  = None) by (vm_compute; reflexivity).
  split; [vm_compute; reflexivity |]. split; [exact Hnone |].
  exact (Hid Hnone).
Defined.
